(** * The telemetry reporter of [packages/util/telemetry/generic/index.ts]

    A shallow embedding of the module: the two static fields of the
    [Telemetry] class, the module-level regular expression with its
    [lastIndex], and, as explicit traces, the calls made to the two opaque
    collaborators (the Sentry SDK and the namespaced logger).  Every
    operation of the class is a function from world to world.

    Conventions: a JavaScript string is a [string] of code units below
    256; a number that the module only passes on (a timestamp, an elapsed
    time, a property value) is a [Z]; an optional or possibly undefined
    value is an [option]; an object used as a dictionary is a [gmap]. *)

From Stdlib Require Import ZArith String Ascii List Lia Bool.
From stdpp Require Import base option list strings gmap.

Local Open Scope string_scope.

(** ** JavaScript values *)

(** Values stored in property bags ([{ [key: string]: any }]).  They are
    only carried around by the module, never inspected. *)
Inductive jsval :=
  | JUndefined
  | JNull
  | JBool (b : bool)
  | JNum (n : Z)
  | JStr (s : string).

(** A property bag: a JS object used as a string-keyed map. *)
Abbreviation bag := (gmap string jsval).

(** A boolean slot that may never have been assigned: [None] is
    [undefined].  [truthy] is the test JavaScript performs in [if (x)] and
    [!x]. *)
Definition truthy (f : option bool) : bool :=
  match f with
  | Some true => true
  | _ => false
  end.

(** ** Strings *)

(** [String.prototype.toLowerCase] on code units below 256: the letters
    A-Z, and the Latin-1 capitals U+00C0-U+00DE except U+00D7, move up by
    32; every other code unit is kept. *)
Definition lower_char (c : ascii) : ascii :=
  let n := N_of_ascii c in
  if ((65 <=? n) && (n <=? 90) ||
      (192 <=? n) && (n <=? 222) && negb (n =? 215))%N
  then ascii_of_N (n + 32)
  else c.

Fixpoint toLowerCase (s : string) : string :=
  match s with
  | EmptyString => EmptyString
  | String c s' => String (lower_char c) (toLowerCase s')
  end.

(** The characters that the escapes [\n] and [\t] of a JavaScript string
    stand for. *)
Definition LF : string := String (ascii_of_nat 10) "".
Definition TAB : string := String (ascii_of_nat 9) "".

(** [s.substr(0, n)] *)
Definition substr0 (n : nat) (s : string) : string := substring 0 n s.

(** ** The deny-list regular expression *)

(** The pattern is one group of alternatives; an alternative is a sequence
    of literal characters, and, in one entry, the class repetition
    [[0-9]+]. *)
Inductive piece :=
  | Ch (c : ascii)
  | Digits1.

Definition lit (s : string) : list piece := map Ch (list_ascii_of_string s).

Definition is_digit (c : ascii) : bool :=
  let n := N_of_ascii c in ((48 <=? n) && (n <=? 57))%N.

Fixpoint digit_run (s : list ascii) : nat :=
  match s with
  | c :: s' => if is_digit c then S (digit_run s') else 0
  | [] => 0
  end.

(** Matching one alternative at the head of [s]; the result is the number
    of code units consumed.  [[0-9]+] is greedy.  It is the last piece of
    its alternative and nothing follows the group, so the greedy choice is
    never revised. *)
Fixpoint match_pieces (ps : list piece) (s : list ascii) : option nat :=
  match ps with
  | [] => Some 0
  | Ch c :: ps' =>
      match s with
      | a :: s' => if Ascii.eqb a c then S <$> match_pieces ps' s' else None
      | [] => None
      end
  | Digits1 :: ps' =>
      let k := digit_run s in
      if (k =? 0)%nat then None
      else (fun n => k + n) <$> match_pieces ps' (drop k s)
  end.

(** Alternatives are tried left to right; the first that matches wins. *)
Fixpoint match_alt (alts : list (list piece)) (s : list ascii) : option nat :=
  match alts with
  | [] => None
  | ps :: alts' =>
      match match_pieces ps s with
      | Some n => Some n
      | None => match_alt alts' s
      end
  end.

(** The array of substrings the source joins with [|]. *)
Definition IGNORE_ERRORS : list string :=
  [ "aggregate function"; "already exists"; "authentication failed";
    "cannot drop"; "cross-database references"; "does not exist";
    "econnrefused"; "econnreset"; "enotfound"; "enotfound";
    "er_access_denied_error"; "er_bad_db_error"; "er_bad_field_error";
    "er_cannot_load_from_table_v2"; "er_dup_fieldname";
    "er_no_referenced_row_2"; "er_no_such_table";
    "er_not_supported_auth_mode"; "er_parse_error"; "etimedout";
    "failed to connect"; "is ambiguous"; "key constraint"; "login failed";
    "no such table"; "ora-[0-9]+"; "sqlite_cantopen"; "syntax error";
    "unknown_code_please_report"; "violates" ].

(** Reading one joined entry as a pattern: the text [[0-9]+] is the class
    repetition, every other character of the list stands for itself. *)
Fixpoint compile (s : string) : list piece :=
  match s with
  | String "[" (String "0" (String "-" (String "9" (String "]"
      (String "+" rest))))) => Digits1 :: compile rest
  | String c rest => Ch c :: compile rest
  | EmptyString => []
  end.

(** [IGNORE_ERRORS_REGEX]: the alternation of the entries. *)
Definition IGNORE_ERRORS_REGEX : list (list piece) :=
  map compile IGNORE_ERRORS.

(** Scanning for the leftmost match from position [pos], where [s] is the
    input from [pos] on.  The position past the last code unit is tried
    too.  The result is the end index of the match. *)
Fixpoint regex_search (re : list (list piece)) (s : list ascii) (pos : nat)
  : option nat :=
  match match_alt re s with
  | Some n => Some (pos + n)
  | None =>
      match s with
      | [] => None
      | _ :: s' => regex_search re s' (S pos)
      end
  end.

(** [re.test(s)] for a regular expression with the [g] flag: the search
    starts at [lastIndex]; a match stores its end index in [lastIndex], a
    failure stores 0.  The result pairs the answer with the new
    [lastIndex]. *)
Definition regex_test (re : list (list piece)) (s : string) (lastIndex : nat)
  : bool * nat :=
  let l := list_ascii_of_string s in
  if (length l <? lastIndex)%nat then (false, 0)
  else
    match regex_search re (drop lastIndex l) lastIndex with
    | Some e => (true, e)
    | None => (false, 0)
    end.

(** ** Collaborators and data *)

(** What the module reads from its surroundings: environment variables,
    [process] fields and the constants of [@sqltools/util/constants].
    [extversionnum] stands for [numericVersion(VERSION).toString()], and
    [Severity_lookup m] for [Sentry.Severity[Sentry.Severity.m]]; both
    [numericVersion] and the SDK's enum are declared outside this file. *)
Inductive Severity := Debug | Info | Warning | Error.

(** The object [Sentry.Severity] as the SDK declares it, a string enum:
    each member name is a key and holds the level's lower-case name.  A
    string enum has no entry that leads from a value back to a name.  (The
    SDK adds one more key, [fromString], which holds a function.) *)
Definition Severity_enum : list (string * string) :=
  [ ("Fatal", "fatal"); ("Error", "error"); ("Warning", "warning");
    ("Log", "log"); ("Info", "info"); ("Debug", "debug");
    ("Critical", "critical") ].

(** Reading a property of that object: [Sentry.Severity[key]]. *)
Fixpoint object_get (o : list (string * string)) (key : string)
  : option string :=
  match o with
  | [] => None
  | (k, v) :: o' => if String.eqb k key then Some v else object_get o' key
  end.

Definition Severity_name (m : Severity) : string :=
  match m with
  | Debug => "Debug"
  | Info => "Info"
  | Warning => "Warning"
  | Error => "Error"
  end.

(** [Sentry.Severity.m], and [Sentry.Severity[Sentry.Severity.m]]. *)
Definition Severity_member (m : Severity) : option string :=
  object_get Severity_enum (Severity_name m).

Definition sdk_lookup (m : Severity) : option string :=
  Severity_member m ≫= object_get Severity_enum.

Record Env := {
  PRODUCT : option string;
  DSN_KEY : option string;
  ENV : string;
  VERSION : string;
  platform : string;
  arch : string;
  nodeversion : string;
  extversionnum : string;
  Severity_lookup : Severity -> option string
}.

(** [ITelemetryArgs] and its [extraInfo]. *)
Record ExtraInfo := {
  uniqId : option string;
  sessId : option string
}.

Record ITelemetryArgs := {
  enableTelemetry : option bool;
  extraInfo : option ExtraInfo
}.

(** An [Error] object: its [message], and the [data] some errors carry. *)
Record JsError := {
  err_message : option string;
  err_data : option bag
}.

(** [ITimer]: the module only calls [elapsed()]. *)
Record ITimer := { elapsed : Z }.

(** The argument of [Sentry.setUser]. *)
Record User := {
  id : option string;
  deviceId : option string;
  sessionId : option string
}.

(** The argument of [Sentry.captureEvent]. *)
Record Event := {
  event_id : string;
  message : string;
  extra : option bag;
  timestamp : Z
}.

(** The options of [Sentry.init], bar the send filter [beforeSend]. *)
Record InitOptions := {
  maxBreadcrumbs : Z;
  init_enabled : bool;
  sampleRate : Z;
  release : string;
  environment : string;
  attachStacktrace : bool;
  dsn : option string
}.

(** Calls into the Sentry SDK, in the order they are made. *)
Inductive SentryCall :=
  | Init (o : InitOptions)
  | ClientEnabled (b : bool)
  | SetTags (tags : list (string * string))
  | SetUser (u : User)
  | SetExtras (exception : JsError) (properties : bag)
  | CaptureException (e : JsError)
  | CaptureMessage (msg : string) (level : option string)
  | CaptureEvent (ev : Event).

(** Arguments handed to the logger after the format string. *)
Inductive LogArg :=
  | AStr (s : string)
  | ANum (n : Z)
  | ABag (b : bag)
  | AErr (e : JsError).

(** One write: [log.extend(ns)(fmt, ...args)], [log] being the
    [telemetry] child of the application logger. *)
Record LogLine := {
  ns : string;
  fmt : string;
  args : list LogArg
}.

(** The state the module lives in. *)
Record World := {
  Telemetry_enabled : option bool;
  Telemetry_extraInfo : option ExtraInfo;
  lastIndex : nat;
  sentry : list SentryCall;
  logs : list LogLine;
  now : Z
}.

Definition is_capture (c : SentryCall) : bool :=
  match c with
  | CaptureException _ | CaptureMessage _ _ | CaptureEvent _ => true
  | _ => false
  end.

Definition is_setTags (c : SentryCall) : bool :=
  match c with SetTags _ => true | _ => false end.

Definition is_clientEnabled (b : bool) (c : SentryCall) : bool :=
  match c with ClientEnabled b' => Bool.eqb b b' | _ => false end.

Definition count_calls (p : SentryCall -> bool) (w : World) : nat :=
  length (filter (fun c => p c = true) (sentry w)).

(** State updates, one per kind of effect. *)
Definition call_sentry (c : SentryCall) (w : World) : World :=
  {| Telemetry_enabled := Telemetry_enabled w;
     Telemetry_extraInfo := Telemetry_extraInfo w;
     lastIndex := lastIndex w;
     sentry := (sentry w ++ [c])%list;
     logs := logs w;
     now := now w |}.

Definition write_log (n f : string) (a : list LogArg) (w : World) : World :=
  {| Telemetry_enabled := Telemetry_enabled w;
     Telemetry_extraInfo := Telemetry_extraInfo w;
     lastIndex := lastIndex w;
     sentry := sentry w;
     logs := (logs w ++ [{| ns := n; fmt := f; args := a |}])%list;
     now := now w |}.

Definition set_enabled (b : bool) (w : World) : World :=
  {| Telemetry_enabled := Some b;
     Telemetry_extraInfo := Telemetry_extraInfo w;
     lastIndex := lastIndex w;
     sentry := sentry w;
     logs := logs w;
     now := now w |}.

Definition set_extraInfo (e : option ExtraInfo) (w : World) : World :=
  {| Telemetry_enabled := Telemetry_enabled w;
     Telemetry_extraInfo := e;
     lastIndex := lastIndex w;
     sentry := sentry w;
     logs := logs w;
     now := now w |}.

Definition set_lastIndex (i : nat) (w : World) : World :=
  {| Telemetry_enabled := Telemetry_enabled w;
     Telemetry_extraInfo := Telemetry_extraInfo w;
     lastIndex := i;
     sentry := sentry w;
     logs := logs w;
     now := now w |}.

Definition set_now (t : Z) (w : World) : World :=
  {| Telemetry_enabled := Telemetry_enabled w;
     Telemetry_extraInfo := Telemetry_extraInfo w;
     lastIndex := lastIndex w;
     sentry := sentry w;
     logs := logs w;
     now := t |}.

(** ** The module *)

Section Module_.

Variable E : Env.

(** [process.env.PRODUCT || 'ext']: the empty string is falsy too. *)
Definition product : string :=
  match PRODUCT E with
  | Some p => if String.eqb p "" then "ext" else p
  | None => "ext"
  end.

Definition prefixed (key : string) : string := product ++ ":" ++ key.

(** The send filter given to [Sentry.init]. *)
Definition beforeSend (event : Event) (w : World) : option Event :=
  if negb (truthy (Telemetry_enabled w)) then None else Some event.

(** The tags of [createClient]. *)
Definition static_tags : list (string * string) :=
  [ ("product", product); ("os", platform E); ("arch", arch E);
    ("version", VERSION E); ("extversionnum", extversionnum E);
    ("nodeversion", nodeversion E) ].

Definition createClient (w : World) : World :=
  let w := call_sentry (ClientEnabled true) w in
  let w := call_sentry (SetTags static_tags) w in
  match Telemetry_extraInfo w with
  | Some info =>
      call_sentry (SetUser {| id := uniqId info;
                              deviceId := uniqId info;
                              sessionId := sessId info |}) w
  | None => w
  end.

Definition enable (w : World) : World :=
  if truthy (Telemetry_enabled w) then w
  else
    let w := set_enabled true w in
    let w := createClient w in
    write_log "debug" "Telemetry enabled!" [] w.

Definition disable (w : World) : World :=
  if negb (truthy (Telemetry_enabled w)) then w
  else
    let w := set_enabled false w in
    let w := call_sentry (ClientEnabled false) w in
    write_log "debug" "Telemetry disabled!" [] w.

(** [opts.extraInfo || Telemetry.extraInfo || {}]: an object is truthy,
    the empty one included. *)
Definition updateOpts (opts : ITelemetryArgs) (w : World) : World :=
  let info :=
    match extraInfo opts with
    | Some i => i
    | None =>
        match Telemetry_extraInfo w with
        | Some i => i
        | None => {| uniqId := None; sessId := None |}
        end
    end in
  let w := set_extraInfo (Some info) w in
  if truthy (enableTelemetry opts) then enable w else disable w.

(** The constructor only calls [updateOpts]. *)
Definition Telemetry_new (opts : ITelemetryArgs) (w : World) : World :=
  updateOpts opts w.

(** The format strings that hold escapes, with the characters the escapes
    stand for: a line feed and a tab in the first, a line feed in the
    second. *)
Definition exception_fmt : string :=
  Eval cbv in ("Exception:%O" ++ LF ++ TAB ++ "Data: %j").

Definition event_fmt : string :=
  Eval cbv in ("Event: %s" ++ LF ++ "%j").

(** [error] is [None] for a null or undefined argument; [data] is [None]
    when the caller leaves it out, and then defaults to the empty bag.  In
    the merged [properties] the keys of [data] win. *)
Definition registerException (error : option JsError) (data : option bag)
    (w : World) : World :=
  if negb (truthy (Telemetry_enabled w)) then w
  else
    match error with
    | None => w
    | Some err =>
        let errStr := toLowerCase (default "" (err_message err)) in
        let '(hit, li) := regex_test IGNORE_ERRORS_REGEX errStr (lastIndex w) in
        let w := set_lastIndex li w in
        if hit then w
        else
          let properties : bag :=
            default ∅ data ∪ default ∅ (err_data err) in
          let w := write_log "error" exception_fmt
                     [AErr err; ABag properties] w in
          let w := call_sentry (SetExtras err properties) w in
          call_sentry (CaptureException err) w
    end.

(** The [switch] of [registerMessage], with its default branch. *)
Definition severity_of (severity : string) : Severity :=
  if String.eqb severity "debug" then Debug
  else if String.eqb severity "info" then Info
  else if String.eqb severity "warn" then Warning
  else if String.eqb severity "error" then Error
  else if String.eqb severity "fatal" then Error
  else if String.eqb severity "critical" then Error
  else Info.

Definition registerMessage (severity message : string) (value : option string)
    (w : World) : World :=
  if negb (truthy (Telemetry_enabled w)) then w
  else
    let value := default "Dismissed" value in
    let w := write_log (toLowerCase (substr0 5 severity))
               "Message: %s, value: %s" [AStr message; AStr value] w in
    let sev := severity_of severity in
    call_sentry (CaptureMessage (prefixed message) (Severity_lookup E sev)) w.

Definition registerEvent (name : string) (properties : option bag)
    (w : World) : World :=
  if negb (truthy (Telemetry_enabled w)) then w
  else
    let w := write_log "debug" event_fmt
               [AStr name;
                match properties with Some b => ABag b | None => AStr "" end]
               w in
    call_sentry (CaptureEvent {| event_id := prefixed name;
                                 message := name;
                                 extra := properties;
                                 timestamp := now w |}) w.

Definition registerTime (timeKey : string) (timer : ITimer) (w : World)
  : World :=
  if negb (truthy (Telemetry_enabled w)) then w
  else
    let el := elapsed timer in
    let w := write_log "debug" "Time: %s %d ms" [AStr timeKey; ANum el] w in
    registerEvent (prefixed ("time:" ++ timeKey))
      (Some {[ "value" := JNum el ]}) w.

(** Loading the module: nothing is assigned yet, [Sentry.init] has run,
    and the exported singleton is built with telemetry off. *)
Definition fresh (t : Z) : World :=
  {| Telemetry_enabled := None;
     Telemetry_extraInfo := None;
     lastIndex := 0;
     sentry := [];
     logs := [];
     now := t |}.

Definition telemetry (t : Z) : World :=
  let w := call_sentry (Init {| maxBreadcrumbs := 5;
                                init_enabled := false;
                                sampleRate := 1;
                                release := product ++ "@" ++ VERSION E;
                                environment := ENV E;
                                attachStacktrace := true;
                                dsn := DSN_KEY E |}) (fresh t) in
  Telemetry_new {| enableTelemetry := Some false; extraInfo := None |} w.

(** What the application can do with the exported object, and the passing
    of time. *)
Inductive Op :=
  | OConfigure (opts : ITelemetryArgs)
  | OEnable
  | ODisable
  | OException (error : option JsError) (data : option bag)
  | OMessage (severity message : string) (value : option string)
  | OEvent (name : string) (properties : option bag)
  | OTime (timeKey : string) (timer : ITimer)
  | OTick (t : Z).

Definition run (o : Op) (w : World) : World :=
  match o with
  | OConfigure opts => updateOpts opts w
  | OEnable => enable w
  | ODisable => disable w
  | OException error data => registerException error data w
  | OMessage severity message value =>
      registerMessage severity message value w
  | OEvent name properties => registerEvent name properties w
  | OTime timeKey timer => registerTime timeKey timer w
  | OTick t => set_now t w
  end.

Inductive reachable : World -> Prop :=
  | reach_load t : reachable (telemetry t)
  | reach_step o w : reachable w -> reachable (run o w).

End Module_.

(** ** Vocabulary of the specification *)

(** The four report operations among [Op]. *)
Definition is_report (o : Op) : bool :=
  match o with
  | OException _ _ | OMessage _ _ _ | OEvent _ _ | OTime _ _ => true
  | _ => false
  end.

(** The severities [registerMessage] is typed to accept, and the text of
    each. *)
Inductive SeverityInput :=
  | sev_debug | sev_info | sev_warn | sev_error | sev_critical | sev_fatal.

Definition severity_text (s : SeverityInput) : string :=
  match s with
  | sev_debug => "debug"
  | sev_info => "info"
  | sev_warn => "warn"
  | sev_error => "error"
  | sev_critical => "critical"
  | sev_fatal => "fatal"
  end.

(** The mapping table as the specification words it. *)
Definition severity_table (s : SeverityInput) : Severity :=
  match s with
  | sev_debug => Debug
  | sev_info => Info
  | sev_warn => Warning
  | sev_error | sev_critical | sev_fatal => Error
  end.

(** [msg] contains [sub] in some letter case. *)
Definition contains_ci (msg sub : string) : Prop :=
  exists pre mid post,
    msg = pre ++ mid ++ post /\ toLowerCase mid = sub.

(** The events captured so far. *)
Definition events (w : World) : list Event :=
  omap (fun c => match c with CaptureEvent ev => Some ev | _ => None end)
       (sentry w).

(** An environment to run examples in: no [PRODUCT] variable is set, and
    the enum lookup is the SDK's. *)
Definition sample_env : Env :=
  {| PRODUCT := None;
     DSN_KEY := None;
     ENV := "production";
     VERSION := "0.21.6";
     platform := "linux";
     arch := "x64";
     nodeversion := "v12.4.0";
     extversionnum := "2106";
     Severity_lookup := sdk_lookup |}.

(** The singleton right after loading, and after the application turned
    telemetry on. *)
Definition loaded : World := telemetry sample_env 0.
Definition switched_on : World := enable sample_env loaded.
Definition switched_off : World := disable switched_on.

(** Sample arguments. *)
Definition rows3 : bag := {[ "rows" := JNum 3 ]}.
Definition timerStub : ITimer := {| elapsed := 42 |}.
Definition ids_ab : ExtraInfo := {| uniqId := Some "a"; sessId := Some "b" |}.

(** *** Vocabulary for the further properties *)

(** The entries of the list that stand for themselves. *)
Definition plain_entry (p : string) : Prop :=
  In p IGNORE_ERRORS /\ p <> "ora-[0-9]+".

(** What the alternation looks for in a lower-cased message: a plain entry
    somewhere in it, or the text [ora-] followed by a digit. *)
Definition deny_listed (s : string) : Prop :=
  exists pre post,
    (exists p, plain_entry p /\ s = pre ++ p ++ post) \/
    (exists d, is_digit d = true /\ s = pre ++ "ora-" ++ String d post).

(** The [enabled] option of the Sentry client after a sequence of calls:
    [Sentry.init] sets it, and so does each assignment to
    [getOptions().enabled]. *)
Definition client_step (cur : bool) (c : SentryCall) : bool :=
  match c with
  | Init o => init_enabled o
  | ClientEnabled b => b
  | _ => cur
  end.

Definition client_enabled (w : World) : bool :=
  fold_left client_step (sentry w) false.

Definition is_setUser (c : SentryCall) : bool :=
  match c with SetUser _ => true | _ => false end.

(** The operations that report, configure or toggle nothing. *)
Definition is_toggle (o : Op) : bool :=
  match o with
  | OConfigure _ | OEnable | ODisable => true
  | _ => false
  end.

(** The text the message of an error contributes to the test. *)
Definition errStr_of (err : JsError) : string :=
  toLowerCase (default "" (err_message err)).

(** The merged properties of a forwarded error. *)
Definition merged (err : JsError) (data : option bag) : bag :=
  default ∅ data ∪ default ∅ (err_data err).

(** Sample errors: one the list does not know, one it knows, one without a
    message. *)
Definition null_pointer : JsError :=
  {| err_message := Some "Unexpected null pointer";
     err_data := Some {[ "op" := JStr "read" ]} |}.
Definition syntax_err : JsError :=
  {| err_message := Some "Boom: SYNTAX error near FROM"; err_data := None |}.
Definition no_message : JsError :=
  {| err_message := None; err_data := None |}.
Definition on_ab : ITelemetryArgs :=
  {| enableTelemetry := Some true; extraInfo := Some ids_ab |}.
Definition only_ab : ITelemetryArgs :=
  {| enableTelemetry := None; extraInfo := Some ids_ab |}.

(** ** Properties *)

Section Properties.

Variable E : Env.

(** *** Gating *)

Lemma registerException_falsy error data w :
  truthy (Telemetry_enabled w) = false -> registerException error data w = w.
Proof. intros H. unfold registerException. now rewrite H. Qed.

Lemma registerMessage_falsy severity msg value w :
  truthy (Telemetry_enabled w) = false ->
  registerMessage E severity msg value w = w.
Proof. intros H. unfold registerMessage. now rewrite H. Qed.

Lemma registerEvent_falsy name properties w :
  truthy (Telemetry_enabled w) = false ->
  registerEvent E name properties w = w.
Proof. intros H. unfold registerEvent. now rewrite H. Qed.

Lemma registerTime_falsy timeKey timer w :
  truthy (Telemetry_enabled w) = false ->
  registerTime E timeKey timer w = w.
Proof. intros H. unfold registerTime. now rewrite H. Qed.

Lemma report_falsy o w :
  is_report o = true ->
  truthy (Telemetry_enabled w) = false ->
  run E o w = w.
Proof.
  destruct o; simpl; try discriminate; intros _ H.
  - now apply registerException_falsy.
  - now apply registerMessage_falsy.
  - now apply registerEvent_falsy.
  - now apply registerTime_falsy.
Qed.

Lemma beforeSend_falsy event w :
  truthy (Telemetry_enabled w) = false -> beforeSend event w = None.
Proof. intros H. unfold beforeSend. now rewrite H. Qed.

(** C1.  When the enabled flag is false, or was never assigned, each of
    the four report operations, on any arguments, returns the world it was
    given: the Sentry trace gains no call (so no capture of an exception,
    message or event), the log gains no line, and the enabled flag and the
    extra info are what they were.  The send filter lets nothing through
    either. *)
Theorem disabled_reports_do_nothing (w : World) :
  truthy (Telemetry_enabled w) = false ->
  (forall o, is_report o = true ->
     run E o w = w /\
     sentry (run E o w) = sentry w /\
     count_calls is_capture (run E o w) = count_calls is_capture w /\
     logs (run E o w) = logs w /\
     Telemetry_enabled (run E o w) = Telemetry_enabled w /\
     Telemetry_extraInfo (run E o w) = Telemetry_extraInfo w) /\
  (forall event, beforeSend event w = None).
Proof.
  intros Hf. split.
  - intros o Ho. rewrite (report_falsy o w Ho Hf). repeat split.
  - intros event. now apply beforeSend_falsy.
Qed.

(** *** Enabling and disabling *)

Lemma createClient_frame w :
  Telemetry_enabled (createClient E w) = Telemetry_enabled w /\
  Telemetry_extraInfo (createClient E w) = Telemetry_extraInfo w /\
  lastIndex (createClient E w) = lastIndex w /\
  logs (createClient E w) = logs w /\
  now (createClient E w) = now w.
Proof.
  unfold createClient. cbn.
  destruct (Telemetry_extraInfo w) eqn:Hi; cbn; rewrite ?Hi; auto.
Qed.

Lemma enable_enabled w : Telemetry_enabled (enable E w) = Some true.
Proof.
  unfold enable. destruct (truthy (Telemetry_enabled w)) eqn:Hw.
  - destruct (Telemetry_enabled w) as [[|]|]; now try discriminate.
  - cbn. now rewrite (proj1 (createClient_frame _)).
Qed.

Lemma disable_falsy w : truthy (Telemetry_enabled (disable w)) = false.
Proof.
  unfold disable. destruct (Telemetry_enabled w) as [[|]|] eqn:Hw;
    simpl; try rewrite Hw; reflexivity.
Qed.

Lemma enable_noop w : truthy (Telemetry_enabled w) = true -> enable E w = w.
Proof. intros H. unfold enable. now rewrite H. Qed.

Lemma disable_noop w : truthy (Telemetry_enabled w) = false -> disable w = w.
Proof. intros H. unfold disable. now rewrite H. Qed.

Lemma count_calls_snoc p c w :
  count_calls p (call_sentry c w)
  = count_calls p w + (if p c then 1 else 0).
Proof.
  unfold count_calls. simpl. rewrite filter_app, length_app. f_equal.
  rewrite filter_cons, filter_nil.
  destruct (p c); simpl; [|reflexivity].
  destruct (decide (true = true)); [reflexivity | contradiction].
Qed.

Lemma count_calls_log p n f a w :
  count_calls p (write_log n f a w) = count_calls p w.
Proof. reflexivity. Qed.

Lemma enable_counts w :
  count_calls is_setTags (enable E w) <= count_calls is_setTags w + 1 /\
  count_calls (is_clientEnabled true) (enable E w)
    <= count_calls (is_clientEnabled true) w + 1.
Proof.
  unfold enable. destruct (truthy (Telemetry_enabled w)); [lia|].
  cbv zeta. rewrite !count_calls_log. unfold createClient. cbv zeta.
  cbn [Telemetry_extraInfo call_sentry set_enabled].
  destruct (Telemetry_extraInfo w);
    rewrite ?count_calls_snoc; cbn [is_setTags is_clientEnabled Bool.eqb];
    unfold count_calls; cbn [sentry set_enabled]; lia.
Qed.

Lemma disable_counts w :
  count_calls (is_clientEnabled false) (disable w)
    <= count_calls (is_clientEnabled false) w + 1.
Proof.
  unfold disable. destruct (truthy (Telemetry_enabled w)); cbn [negb]; [|lia].
  cbv zeta. rewrite count_calls_log, count_calls_snoc.
  unfold count_calls; cbn [sentry set_enabled is_clientEnabled Bool.eqb]; lia.
Qed.

(** C7.  From any state, a second [enable()] right after a first returns
    the world unchanged, so the two calls together set the tags and switch
    the client on at most once; a second [disable()] right after a first
    returns the world unchanged as well, so the two together switch the
    client off at most once. *)
Theorem enable_disable_idempotent (w : World) :
  enable E (enable E w) = enable E w /\
  count_calls is_setTags (enable E (enable E w))
    <= count_calls is_setTags w + 1 /\
  count_calls (is_clientEnabled true) (enable E (enable E w))
    <= count_calls (is_clientEnabled true) w + 1 /\
  disable (disable w) = disable w /\
  count_calls (is_clientEnabled false) (disable (disable w))
    <= count_calls (is_clientEnabled false) w + 1.
Proof.
  assert (He : enable E (enable E w) = enable E w).
  { apply enable_noop. now rewrite enable_enabled. }
  assert (Hd : disable (disable w) = disable w).
  { apply disable_noop, disable_falsy. }
  rewrite He, Hd. pose proof (enable_counts w) as [? ?].
  pose proof (disable_counts w). auto.
Qed.

(** *** Messages *)

Lemma registerMessage_enabled severity msg value w :
  Telemetry_enabled w = Some true ->
  registerMessage E severity msg value w
  = call_sentry
      (CaptureMessage (prefixed E msg)
         (Severity_lookup E (severity_of severity)))
      (write_log (toLowerCase (substr0 5 severity)) "Message: %s, value: %s"
         [AStr msg; AStr (default "Dismissed" value)] w).
Proof. intros H. unfold registerMessage. now rewrite H. Qed.

Lemma severity_of_table s : severity_of (severity_text s) = severity_table s.
Proof. destruct s; reflexivity. Qed.

(** The switch on the six severities: the one Sentry call made is
    [captureMessage], and its level is the result of indexing the SDK's
    enum by the member the table gives. *)
Lemma registerMessage_severity (w : World) (s : SeverityInput)
    (msg : string) (value : option string) :
  Telemetry_enabled w = Some true ->
  sentry (registerMessage E (severity_text s) msg value w)
  = (sentry w
     ++ [CaptureMessage (prefixed E msg)
           (Severity_lookup E (severity_table s))])%list.
Proof.
  intros H. rewrite registerMessage_enabled by exact H.
  now rewrite severity_of_table.
Qed.

Lemma sdk_lookup_undefined (m : Severity) : sdk_lookup m = None.
Proof. destruct m; reflexivity. Qed.

(** C3, on the code.  With the SDK's enum, a string enum, the level that
    reaches [captureMessage] is undefined for each of the six severities:
    the switch does pick the member the table gives, and that member holds
    a level name, but the call passes [Sentry.Severity[sev]], the enum
    indexed by that level name, and the enum has no such key. *)
Theorem registerMessage_level_is_undefined (w : World) (s : SeverityInput)
    (msg : string) (value : option string) :
  (forall m, Severity_lookup E m = sdk_lookup m) ->
  Telemetry_enabled w = Some true ->
  sentry (registerMessage E (severity_text s) msg value w)
  = (sentry w ++ [CaptureMessage (prefixed E msg) None])%list /\
  severity_of (severity_text s) = severity_table s /\
  Severity_member (severity_table s) <> None.
Proof.
  intros Hsdk Hon. rewrite registerMessage_enabled by exact Hon.
  rewrite severity_of_table, Hsdk, sdk_lookup_undefined.
  split; [reflexivity|]. split; [reflexivity|]. now destruct s.
Qed.

(** C8.  While enabled, two [registerMessage] calls that differ only in
    [value] leave the same Sentry trace, the old one extended by one
    [captureMessage] built from the prefixed message and the mapped
    severity alone; the value (or its default) is an argument of the log
    line the call writes. *)
Theorem registerMessage_value_stays_local (w : World)
    (severity msg : string) (v1 v2 : option string) :
  Telemetry_enabled w = Some true ->
  sentry (registerMessage E severity msg v1 w)
  = sentry (registerMessage E severity msg v2 w) /\
  sentry (registerMessage E severity msg v1 w)
  = (sentry w
     ++ [CaptureMessage (prefixed E msg)
           (Severity_lookup E (severity_of severity))])%list /\
  exists line,
    logs (registerMessage E severity msg v1 w) = (logs w ++ [line])%list /\
    fmt line = "Message: %s, value: %s" /\
    args line = [AStr msg; AStr (default "Dismissed" v1)].
Proof.
  intros H. rewrite !registerMessage_enabled by exact H.
  repeat split. eexists. repeat split.
Qed.

(** *** Events and timings *)

Lemma string_length_app (a b : string) :
  String.length (a ++ b) = String.length a + String.length b.
Proof.
  induction a as [|c a IH]; [reflexivity|].
  change (S (String.length (a ++ b)) = S (String.length a + String.length b)).
  now rewrite IH.
Qed.

Lemma registerEvent_enabled name properties w :
  Telemetry_enabled w = Some true ->
  registerEvent E name properties w
  = call_sentry
      (CaptureEvent {| event_id := prefixed E name;
                       message := name;
                       extra := properties;
                       timestamp := now w |})
      (write_log "debug" event_fmt
         [AStr name;
          match properties with Some b => ABag b | None => AStr "" end] w).
Proof. intros H. unfold registerEvent. now rewrite H. Qed.

(** C5, amended.  While enabled, [registerEvent name properties] makes
    exactly one Sentry call, a [captureEvent] whose identifier is the
    product-prefixed name, whose message is the name itself, without the
    prefix, and whose extra data is the properties bag. *)
Theorem registerEvent_capture (w : World) (name : string)
    (properties : option bag) :
  Telemetry_enabled w = Some true ->
  exists ev,
    sentry (registerEvent E name properties w)
    = (sentry w ++ [CaptureEvent ev])%list /\
    event_id ev = prefixed E name /\
    message ev = name /\
    extra ev = properties /\
    message ev <> prefixed E name.
Proof.
  intros H. rewrite registerEvent_enabled by exact H.
  eexists. repeat split. cbn. unfold prefixed. intros Heq.
  apply (f_equal String.length) in Heq.
  rewrite !string_length_app in Heq. cbn in Heq. lia.
Qed.

(** C4, amended.  While enabled, [registerTime timeKey timer] leaves the
    Sentry trace that [registerEvent] leaves when called with the
    product-prefixed key ["<product>:time:" + timeKey] and the bag
    [{value: n}], [n] being what the timer's [elapsed()] returns: the
    identifier of the captured event carries the prefix twice and its
    message once. *)
Theorem registerTime_delegates (w : World) (timeKey : string)
    (timer : ITimer) :
  Telemetry_enabled w = Some true ->
  sentry (registerTime E timeKey timer w)
  = sentry (registerEvent E (prefixed E ("time:" ++ timeKey))
              (Some {[ "value" := JNum (elapsed timer) ]}) w) /\
  sentry (registerTime E timeKey timer w)
  = (sentry w
     ++ [CaptureEvent
           {| event_id := prefixed E (prefixed E ("time:" ++ timeKey));
              message := prefixed E ("time:" ++ timeKey);
              extra := Some {[ "value" := JNum (elapsed timer) ]};
              timestamp := now w |}])%list.
Proof.
  intros H. unfold registerTime. rewrite H. cbn [truthy negb]. cbv zeta.
  rewrite !registerEvent_enabled by exact H. split; reflexivity.
Qed.

(** *** Configuring *)

Lemma enable_frame w :
  Telemetry_extraInfo (enable E w) = Telemetry_extraInfo w /\
  lastIndex (enable E w) = lastIndex w /\
  now (enable E w) = now w.
Proof.
  unfold enable. destruct (truthy (Telemetry_enabled w)); [auto|].
  cbn. destruct (createClient_frame (set_enabled true w)) as (_ & ? & ? & _ & ?).
  auto.
Qed.

Lemma disable_frame w :
  Telemetry_extraInfo (disable w) = Telemetry_extraInfo w /\
  lastIndex (disable w) = lastIndex w /\
  now (disable w) = now w.
Proof.
  unfold disable. destruct (truthy (Telemetry_enabled w)); cbn; auto.
Qed.

Lemma updateOpts_extraInfo opts w :
  Telemetry_extraInfo (updateOpts E opts w)
  = Some (match extraInfo opts with
          | Some i => i
          | None => default {| uniqId := None; sessId := None |}
                      (Telemetry_extraInfo w)
          end).
Proof.
  unfold updateOpts. cbv zeta.
  destruct (truthy (enableTelemetry opts)).
  - rewrite (proj1 (enable_frame _)). cbn.
    destruct (extraInfo opts), (Telemetry_extraInfo w); reflexivity.
  - rewrite (proj1 (disable_frame _)). cbn.
    destruct (extraInfo opts), (Telemetry_extraInfo w); reflexivity.
Qed.

Lemma updateOpts_on opts w :
  enableTelemetry opts = Some true ->
  Telemetry_enabled (updateOpts E opts w) = Some true.
Proof.
  intros H. unfold updateOpts. rewrite H. cbn [truthy]. cbv zeta.
  apply enable_enabled.
Qed.

(** C6.  From any state, [configure({enableTelemetry: false, extraInfo:
    {a, b}})] followed by [configure({enableTelemetry: true})] leaves the
    stored extra info at the identifiers [a] and [b] and the enabled flag
    at true.  In general a [configure] whose options carry no extra info
    keeps the stored one, and one whose options carry some stores it. *)
Theorem configure_merges_extraInfo :
  (forall (w : World) (a b : string),
     let info := {| uniqId := Some a; sessId := Some b |} in
     let w1 := updateOpts E {| enableTelemetry := Some false;
                               extraInfo := Some info |} w in
     let w2 := updateOpts E {| enableTelemetry := Some true;
                               extraInfo := None |} w1 in
     Telemetry_extraInfo w1 = Some info /\
     Telemetry_extraInfo w2 = Some info /\
     Telemetry_enabled w2 = Some true) /\
  (forall (w : World) (opts : ITelemetryArgs) (info : ExtraInfo),
     Telemetry_extraInfo w = Some info ->
     extraInfo opts = None ->
     Telemetry_extraInfo (updateOpts E opts w) = Some info) /\
  (forall (w : World) (opts : ITelemetryArgs) (info : ExtraInfo),
     extraInfo opts = Some info ->
     Telemetry_extraInfo (updateOpts E opts w) = Some info).
Proof.
  split; [|split].
  - intros w a b info w1 w2. subst w1 w2.
    rewrite updateOpts_on by reflexivity.
    rewrite !updateOpts_extraInfo. cbn. auto.
  - intros w opts info Hw Ho. rewrite updateOpts_extraInfo, Ho, Hw.
    reflexivity.
  - intros w opts info Ho. rewrite updateOpts_extraInfo, Ho. reflexivity.
Qed.

(** *** The extra info is always there *)

Lemma registerException_frame error data w :
  Telemetry_extraInfo (registerException error data w) = Telemetry_extraInfo w.
Proof.
  unfold registerException.
  destruct (truthy (Telemetry_enabled w)); cbn [negb]; [|reflexivity].
  destruct error as [err|]; [|reflexivity].
  destruct (regex_test _ _ _) as [[|] li]; reflexivity.
Qed.

Lemma run_frame o w :
  (forall opts, o <> OConfigure opts) ->
  Telemetry_extraInfo (run E o w) = Telemetry_extraInfo w.
Proof.
  intros Hc. destruct o; cbn [run].
  - now destruct (Hc opts).
  - apply enable_frame.
  - apply disable_frame.
  - apply registerException_frame.
  - unfold registerMessage. now destruct (truthy (Telemetry_enabled w)).
  - unfold registerEvent. now destruct (truthy (Telemetry_enabled w)).
  - unfold registerTime, registerEvent.
    destruct (truthy (Telemetry_enabled w)) eqn:Hw; cbn; [|reflexivity].
    now rewrite Hw.
  - reflexivity.
Qed.

Lemma reachable_extraInfo w :
  reachable E w -> is_Some (Telemetry_extraInfo w).
Proof.
  induction 1 as [t|o w Hw IH].
  - unfold telemetry, Telemetry_new. rewrite updateOpts_extraInfo. eauto.
  - destruct o; try (rewrite run_frame by discriminate; exact IH).
    cbn [run]. rewrite updateOpts_extraInfo. eauto.
Qed.

Lemma enable_sentry w info :
  truthy (Telemetry_enabled w) = false ->
  Telemetry_extraInfo w = Some info ->
  sentry (enable E w)
  = (sentry w
     ++ [ClientEnabled true; SetTags (static_tags E);
         SetUser {| id := uniqId info;
                    deviceId := uniqId info;
                    sessionId := sessId info |}])%list.
Proof.
  intros Hoff Hi. unfold enable. rewrite Hoff. cbv zeta.
  unfold createClient. cbn. rewrite Hi. cbn.
  now rewrite <- !app_assoc.
Qed.


(** *** The exported singleton *)

(** C9, amended.  Right after module load the enabled flag of the
    singleton is undefined: the static field has no initialiser and the
    constructor's [disable()] returns before assigning it.  The flag is
    therefore not true, every report operation on that state returns it
    unchanged, and the Sentry trace holds the [init] call and no capture. *)
Theorem telemetry_starts_unset (t : Z) :
  Telemetry_enabled (telemetry E t) = None /\
  truthy (Telemetry_enabled (telemetry E t)) = false /\
  (forall error data,
     registerException error data (telemetry E t) = telemetry E t) /\
  (forall severity msg value,
     registerMessage E severity msg value (telemetry E t) = telemetry E t) /\
  (forall name properties,
     registerEvent E name properties (telemetry E t) = telemetry E t) /\
  (forall timeKey timer,
     registerTime E timeKey timer (telemetry E t) = telemetry E t) /\
  (forall event, beforeSend event (telemetry E t) = None) /\
  count_calls is_capture (telemetry E t) = 0.
Proof. repeat split. Qed.

End Properties.

(** *** The deny-list *)

Lemma toLowerCase_app (a b : string) :
  toLowerCase (a ++ b) = toLowerCase a ++ toLowerCase b.
Proof.
  induction a as [|c a IH]; [reflexivity|].
  change (String (lower_char c) (toLowerCase (a ++ b))
          = String (lower_char c) (toLowerCase a ++ toLowerCase b)).
  now rewrite IH.
Qed.

Lemma list_ascii_app (a b : string) :
  list_ascii_of_string (a ++ b)
  = (list_ascii_of_string a ++ list_ascii_of_string b)%list.
Proof.
  induction a as [|c a IH]; [reflexivity|].
  change (c :: list_ascii_of_string (a ++ b)
          = c :: (list_ascii_of_string a ++ list_ascii_of_string b)%list).
  now rewrite IH.
Qed.

Lemma match_pieces_lit (p : string) (rest : list ascii) :
  match_pieces (lit p) (list_ascii_of_string p ++ rest)%list
  = Some (String.length p).
Proof.
  induction p as [|c p IH]; [reflexivity|].
  cbn. rewrite Ascii.eqb_refl. unfold lit in IH. now rewrite IH.
Qed.

Lemma match_alt_In re ps s n :
  In ps re -> match_pieces ps s = Some n -> is_Some (match_alt re s).
Proof.
  induction re as [|qs re IH]; [contradiction|].
  intros [->|Hin] Hm; cbn.
  - rewrite Hm. eauto.
  - destruct (match_pieces qs s); eauto.
Qed.

Lemma regex_search_finds re pre s pos :
  is_Some (match_alt re s) -> is_Some (regex_search re (pre ++ s)%list pos).
Proof.
  revert pos. induction pre as [|c pre IH]; intros pos Hs.
  - destruct Hs as [n Hn]. destruct s; cbn; rewrite Hn; eauto.
  - cbn. destruct (match_alt re (c :: (pre ++ s)%list)); eauto.
Qed.

Lemma compile_literal p :
  In p IGNORE_ERRORS -> p <> "ora-[0-9]+" -> compile p = lit p.
Proof.
  unfold IGNORE_ERRORS. cbn [In]. intros H Hne.
  repeat (destruct H as [<-|H]; [reflexivity || now destruct Hne|]).
  contradiction.
Qed.

(** With [lastIndex] at 0 the test finds every entry that is a plain
    substring, whatever the letter case of the message. *)
Lemma regex_test_fresh (msg p : string) :
  In p IGNORE_ERRORS -> p <> "ora-[0-9]+" -> contains_ci msg p ->
  exists e, regex_test IGNORE_ERRORS_REGEX (toLowerCase msg) 0 = (true, e).
Proof.
  intros Hin Hne (pre & mid & post & -> & Hmid).
  rewrite !toLowerCase_app, Hmid.
  assert (Hs : is_Some (regex_search IGNORE_ERRORS_REGEX
            (list_ascii_of_string (toLowerCase pre ++ p ++ toLowerCase post))
            0)).
  { rewrite !list_ascii_app. apply regex_search_finds.
    apply (match_alt_In _ (compile p) _ (String.length p)).
    - unfold IGNORE_ERRORS_REGEX. now apply in_map.
    - rewrite compile_literal by assumption. apply match_pieces_lit. }
  destruct Hs as [e He]. exists e. unfold regex_test. cbv zeta.
  change (drop 0 ?l) with l. rewrite He.
  now destruct (list_ascii_of_string _).
Qed.

(** An enabled reporter whose regular expression has [lastIndex] at 0
    drops an error whose message contains a plain entry of the list: no
    Sentry call, no log line. *)
Lemma registerException_fresh_drops (w : World) (err : JsError)
    (data : option bag) (msg p : string) :
  Telemetry_enabled w = Some true ->
  lastIndex w = 0 ->
  err_message err = Some msg ->
  In p IGNORE_ERRORS -> p <> "ora-[0-9]+" -> contains_ci msg p ->
  sentry (registerException (Some err) data w) = sentry w /\
  logs (registerException (Some err) data w) = logs w.
Proof.
  intros Hon Hli Hmsg Hin Hne Hc.
  destruct (regex_test_fresh msg p Hin Hne Hc) as [e He].
  unfold registerException. rewrite Hon, Hmsg, Hli.
  change (default "" (Some msg)) with msg. cbn [truthy negb].
  rewrite He. split; reflexivity.
Qed.

(** C2, on the code.  The regular expression carries the [g] flag and is
    shared by all calls, so a successful test leaves its end index in
    [lastIndex] and the next test starts there.  For an enabled reporter
    with [lastIndex] at 0 and an error whose message is "syntax error":
    the first [registerException] drops it and leaves [lastIndex] at 12;
    the second, with the same error, searches from 12, finds nothing, and
    forwards the error to [captureException]. *)
Theorem registerException_repeat_forwards (w : World) (data : option bag) :
  Telemetry_enabled w = Some true ->
  lastIndex w = 0 ->
  let err := {| err_message := Some "syntax error"; err_data := None |} in
  let w1 := registerException (Some err) data w in
  let w2 := registerException (Some err) data w1 in
  sentry w1 = sentry w /\
  lastIndex w1 = 12 /\
  sentry w2
  = (sentry w
     ++ [SetExtras err (default ∅ data ∪ ∅); CaptureException err])%list /\
  count_calls is_capture w2 = count_calls is_capture w + 1.
Proof.
  intros Hon Hli err w1 w2.
  assert (H1 : w1 = set_lastIndex 12 w).
  { subst w1. unfold registerException. rewrite Hon, Hli. reflexivity. }
  assert (H2 : sentry w2
     = (sentry w
        ++ [SetExtras err (default ∅ data ∪ ∅); CaptureException err])%list).
  { subst w2. rewrite H1. unfold registerException. cbn [Telemetry_enabled
      set_lastIndex lastIndex]. rewrite Hon. cbn. now rewrite <- app_assoc. }
  repeat split.
  - now rewrite H1.
  - now rewrite H1.
  - exact H2.
  - unfold count_calls. rewrite H2, filter_app, length_app. reflexivity.
Qed.

(** The entry [ora-[0-9]+] is a pattern, not a substring: a message made of
    those very characters passes the test. *)
Remark ora_entry_is_a_pattern :
  regex_test IGNORE_ERRORS_REGEX (toLowerCase "ORA-[0-9]+") 0 = (false, 0) /\
  regex_test IGNORE_ERRORS_REGEX (toLowerCase "ORA-00942") 0 = (true, 9).
Proof. split; vm_compute; reflexivity. Qed.

(** ** Instances *)

(** C1 at the singleton switched on and off again, where the flag is
    false, and at the singleton as loaded, where it is undefined. *)
Lemma disabled_reports_do_nothing_witness :
  Telemetry_enabled switched_off = Some false /\
  truthy (Telemetry_enabled switched_off) = false /\
  is_report (OEvent "save" (Some rows3)) = true /\
  run sample_env (OEvent "save" (Some rows3)) switched_off = switched_off /\
  beforeSend {| event_id := "x"; message := "x"; extra := None;
                timestamp := 0 |} switched_off = None /\
  Telemetry_enabled loaded = None /\
  truthy (Telemetry_enabled loaded) = false /\
  run sample_env (OTime "query" timerStub) loaded = loaded.
Proof.
  destruct (disabled_reports_do_nothing sample_env switched_off eq_refl)
    as [Hr Hb].
  destruct (Hr (OEvent "save" (Some rows3)) eq_refl) as [Hw _].
  destruct (disabled_reports_do_nothing sample_env loaded eq_refl)
    as [Hl _].
  destruct (Hl (OTime "query" timerStub) eq_refl) as [Hw' _].
  split; [reflexivity|]. split; [reflexivity|]. split; [reflexivity|].
  split; [exact Hw|]. split; [apply Hb|].
  split; [reflexivity|]. split; [reflexivity | exact Hw'].
Defined.

(** C2 on the code, at the singleton just switched on. *)
Lemma registerException_repeat_forwards_witness :
  let err := {| err_message := Some "syntax error"; err_data := None |} in
  Telemetry_enabled switched_on = Some true /\
  lastIndex switched_on = 0 /\
  count_calls is_capture
    (registerException (Some err) None
       (registerException (Some err) None switched_on))
  = count_calls is_capture switched_on + 1.
Proof.
  intros err. split; [reflexivity|]. split; [reflexivity|].
  apply (registerException_repeat_forwards switched_on None eq_refl eq_refl).
Defined.

(** C3 on the code, at [registerMessage("error", "hi")]. *)
Lemma registerMessage_level_is_undefined_witness :
  (forall m, Severity_lookup sample_env m = sdk_lookup m) /\
  Telemetry_enabled switched_on = Some true /\
  Severity_member Error = Some "error" /\
  sentry (registerMessage sample_env "error" "hi" None switched_on)
  = (sentry switched_on ++ [CaptureMessage "ext:hi" None])%list.
Proof.
  split; [reflexivity|]. split; [reflexivity|]. split; [reflexivity|].
  exact (proj1 (registerMessage_level_is_undefined sample_env switched_on
                  sev_error "hi" None (fun m => eq_refl) eq_refl)).
Defined.

(** C4, amended, at [registerTime("query", timerStub)]. *)
Lemma registerTime_delegates_witness :
  Telemetry_enabled switched_on = Some true /\
  sentry (registerTime sample_env "query" timerStub switched_on)
  = sentry (registerEvent sample_env "ext:time:query"
              (Some {[ "value" := JNum 42 ]}) switched_on).
Proof.
  split; [reflexivity|].
  exact (proj1 (registerTime_delegates sample_env switched_on "query"
                  timerStub eq_refl)).
Defined.

(** C4 as stated fails: [registerTime("query", timerStub)] and
    [registerEvent("time:query", {value: 42})] capture different events,
    the former with identifier "ext:ext:time:query" and message
    "ext:time:query", the latter with "ext:time:query" and "time:query". *)
Lemma registerTime_differs_from_plain_event :
  Telemetry_enabled switched_on = Some true /\
  events (registerTime sample_env "query" timerStub switched_on)
  <> events (registerEvent sample_env "time:query"
               (Some {[ "value" := JNum 42 ]}) switched_on).
Proof.
  split; [reflexivity|]. intros H.
  apply (f_equal (map (fun ev => (event_id ev, message ev)))) in H.
  vm_compute in H. discriminate H.
Defined.

(** C5, amended, at [registerEvent("save", {rows: 3})]. *)
Lemma registerEvent_capture_witness :
  Telemetry_enabled switched_on = Some true /\
  exists ev,
    sentry (registerEvent sample_env "save" (Some rows3) switched_on)
    = (sentry switched_on ++ [CaptureEvent ev])%list /\
    event_id ev = "ext:save" /\
    message ev = "save" /\
    extra ev = Some rows3.
Proof.
  split; [reflexivity|].
  destruct (registerEvent_capture sample_env switched_on "save" (Some rows3)
              eq_refl) as (ev & Hs & Hi & Hm & Hx & _).
  exists ev. auto.
Defined.

(** C5 as stated fails: the event captured for
    [registerEvent("save", {rows: 3})] does not have the prefixed name as
    its message. *)
Lemma registerEvent_message_is_not_prefixed :
  Telemetry_enabled switched_on = Some true /\
  ~ exists ev,
      sentry (registerEvent sample_env "save" (Some rows3) switched_on)
      = (sentry switched_on ++ [CaptureEvent ev])%list /\
      event_id ev = prefixed sample_env "save" /\
      message ev = prefixed sample_env "save" /\
      extra ev = Some rows3.
Proof.
  split; [reflexivity|]. intros (ev & Hs & _ & Hm & _).
  rewrite registerEvent_enabled in Hs by reflexivity.
  cbn [sentry call_sentry write_log] in Hs.
  apply app_inj_tail in Hs as [_ Hs]. injection Hs as <-.
  cbn in Hm. discriminate Hm.
Defined.

(** C6 at the singleton. *)
Lemma configure_merges_extraInfo_witness :
  let off_ab := {| enableTelemetry := Some false; extraInfo := Some ids_ab |} in
  let on := {| enableTelemetry := Some true; extraInfo := None |} in
  Telemetry_extraInfo (updateOpts sample_env off_ab loaded) = Some ids_ab /\
  extraInfo on = None /\
  Telemetry_extraInfo
    (updateOpts sample_env on (updateOpts sample_env off_ab loaded))
  = Some ids_ab /\
  Telemetry_enabled
    (updateOpts sample_env on (updateOpts sample_env off_ab loaded))
  = Some true /\
  extraInfo off_ab = Some ids_ab.
Proof.
  intros off_ab on.
  destruct (configure_merges_extraInfo sample_env) as (Hs & Hk & Hr).
  destruct (Hs loaded "a" "b") as (H1 & H2 & H3).
  split; [exact (Hr loaded off_ab ids_ab eq_refl)|].
  split; [reflexivity|].
  split; [exact (Hk _ on ids_ab H1 eq_refl)|].
  split; [exact H3 | reflexivity].
Defined.

(** C8 at two dismissals of the same message. *)
Lemma registerMessage_value_stays_local_witness :
  Telemetry_enabled switched_on = Some true /\
  sentry (registerMessage sample_env "warn" "hi" (Some "Yes") switched_on)
  = sentry (registerMessage sample_env "warn" "hi" None switched_on).
Proof.
  split; [reflexivity|].
  exact (proj1 (registerMessage_value_stays_local sample_env switched_on
                  "warn" "hi" (Some "Yes") None eq_refl)).
Defined.

(** C9 as stated fails: after load the flag is not [false]. *)
Lemma loaded_flag_is_not_false : Telemetry_enabled loaded <> Some false.
Proof. vm_compute. discriminate. Defined.


(** ** Further properties *)

(** *** The regular expression *)

Lemma string_of_list_ascii_app (a b : list ascii) :
  string_of_list_ascii (a ++ b)%list
  = string_of_list_ascii a ++ string_of_list_ascii b.
Proof.
  induction a as [|c a IH]; [reflexivity|].
  change (String c (string_of_list_ascii (a ++ b)%list)
          = String c (string_of_list_ascii a ++ string_of_list_ascii b)).
  now rewrite IH.
Qed.

Lemma list_ascii_length (s : string) :
  length (list_ascii_of_string s) = String.length s.
Proof. induction s as [|c s IH]; cbn; [reflexivity | now rewrite IH]. Qed.

Lemma match_pieces_lit_inv (p : string) (s : list ascii) (n : nat) :
  match_pieces (lit p) s = Some n ->
  n = String.length p /\
  exists rest, s = (list_ascii_of_string p ++ rest)%list.
Proof.
  revert s n. induction p as [|c p IH]; intros s n H.
  - cbn in H. injection H as <-. split; [reflexivity|]. now exists s.
  - cbn in H. destruct s as [|a s]; [discriminate|].
    destruct (Ascii.eqb a c) eqn:Hac; [|discriminate].
    apply Ascii.eqb_eq in Hac as ->.
    fold (lit p) in H.
    destruct (match_pieces (lit p) s) as [m|] eqn:Hm; [|discriminate].
    injection H as <-. destruct (IH _ _ Hm) as [-> [rest ->]].
    split; [reflexivity|]. now exists rest.
Qed.

Lemma digit_run_le (s : list ascii) : digit_run s <= length s.
Proof.
  induction s as [|c s IH]; cbn; [lia|]. destruct (is_digit c); cbn; lia.
Qed.

Lemma match_ora_inv (s : list ascii) (n : nat) :
  match_pieces (compile "ora-[0-9]+") s = Some n ->
  5 <= n <= length s /\
  exists d rest,
    is_digit d = true /\
    s = (list_ascii_of_string "ora-" ++ d :: rest)%list.
Proof.
  change (compile "ora-[0-9]+") with (lit "ora-" ++ [Digits1])%list.
  cbn [lit list_ascii_of_string map app match_pieces].
  do 4 (destruct s as [|? s]; [discriminate|];
        match goal with
        | |- context [Ascii.eqb ?a ?c] =>
            destruct (Ascii.eqb a c) eqn:?; [|discriminate]
        end).
  repeat match goal with
         | H : Ascii.eqb _ _ = true |- _ => apply Ascii.eqb_eq in H; subst
         end.
  pose proof (digit_run_le s) as Hle.
  destruct s as [|d rest]; [discriminate|].
  cbn [digit_run] in *. destruct (is_digit d) eqn:Hd; [|discriminate].
  cbn. intros H. injection H as <-. split; [cbn in Hle; lia|].
  exists d, rest. auto.
Qed.

Lemma match_ora_digit (d : ascii) (rest : list ascii) :
  is_digit d = true ->
  is_Some (match_pieces (compile "ora-[0-9]+")
             (list_ascii_of_string "ora-" ++ d :: rest)%list).
Proof.
  intros Hd.
  change (compile "ora-[0-9]+") with (lit "ora-" ++ [Digits1])%list.
  cbn. rewrite Hd. cbn. eauto.
Qed.

Lemma match_alt_inv re s n :
  match_alt re s = Some n ->
  exists ps, In ps re /\ match_pieces ps s = Some n.
Proof.
  induction re as [|qs re IH]; [discriminate|]. cbn.
  destruct (match_pieces qs s) as [m|] eqn:Hm.
  - intros H. injection H as <-. exists qs. auto.
  - intros H. destruct (IH H) as (ps & Hin & Hps). exists ps. auto.
Qed.

Lemma regex_search_inv re s pos e :
  regex_search re s pos = Some e ->
  exists pre suf n,
    s = (pre ++ suf)%list /\ match_alt re suf = Some n /\
    e = pos + length pre + n.
Proof.
  revert pos. induction s as [|c s IH]; intros pos; cbn.
  - destruct (match_alt re []) as [n|] eqn:Hn; [|discriminate].
    intros H. injection H as <-. exists [], [], n. cbn. split; [easy|].
    split; [easy | lia].
  - destruct (match_alt re (c :: s)) as [n|] eqn:Hn.
    + intros H. injection H as <-. exists [], (c :: s), n. cbn.
      split; [easy|]. split; [easy | lia].
    + intros H. destruct (IH _ H) as (pre & suf & n & -> & Hm & ->).
      exists (c :: pre), suf, n. cbn. split; [easy|]. split; [easy | lia].
Qed.

Lemma entries_nonempty p : In p IGNORE_ERRORS -> 1 <= String.length p.
Proof.
  unfold IGNORE_ERRORS. cbn [In]. intros H.
  repeat (destruct H as [<-|H]; [cbn; lia|]). contradiction.
Qed.

(** What a match of the alternation at the head of [suf] tells. *)
Lemma match_alt_entry (suf : list ascii) (n : nat) :
  match_alt IGNORE_ERRORS_REGEX suf = Some n ->
  1 <= n <= length suf /\
  ((exists p rest, plain_entry p /\
      suf = (list_ascii_of_string p ++ rest)%list) \/
   (exists d rest, is_digit d = true /\
      suf = (list_ascii_of_string "ora-" ++ d :: rest)%list)).
Proof.
  intros H. apply match_alt_inv in H as (ps & Hin & Hps).
  unfold IGNORE_ERRORS_REGEX in Hin. apply in_map_iff in Hin as (p & <- & Hp).
  destruct (decide (p = "ora-[0-9]+")) as [->|Hne].
  - apply match_ora_inv in Hps as [Hn (d & rest & Hd & ->)].
    split; [lia|]. right. eauto.
  - rewrite compile_literal in Hps by assumption.
    apply match_pieces_lit_inv in Hps as [-> [rest ->]].
    pose proof (entries_nonempty p Hp).
    rewrite length_app, list_ascii_length. split; [lia|].
    left. exists p, rest. split; [split|]; auto.
Qed.

Lemma regex_test_true_inv (s : string) (li e : nat) :
  regex_test IGNORE_ERRORS_REGEX s li = (true, e) ->
  li <= String.length s /\
  exists pre suf n,
    list_ascii_of_string s = (take li (list_ascii_of_string s) ++ pre ++ suf)%list /\
    match_alt IGNORE_ERRORS_REGEX suf = Some n /\
    e = li + length pre + n.
Proof.
  unfold regex_test. cbv zeta. rewrite list_ascii_length.
  destruct (String.length s <? li)%nat eqn:Hlt; [discriminate|].
  apply Nat.ltb_ge in Hlt.
  destruct (regex_search _ _ _) as [e'|] eqn:Hs; [|discriminate].
  intros H. injection H as <-. split; [exact Hlt|].
  apply regex_search_inv in Hs as (pre & suf & n & Hd & Hm & ->).
  exists pre, suf, n. split; [|auto].
  now rewrite <- Hd, take_drop.
Qed.

Lemma deny_listed_found (s : string) :
  deny_listed s ->
  is_Some (regex_search IGNORE_ERRORS_REGEX (list_ascii_of_string s) 0).
Proof.
  intros (pre & post & [(p & [Hin Hne] & ->)|(d & Hd & ->)]);
    rewrite !list_ascii_app; apply regex_search_finds.
  - apply (match_alt_In _ (compile p) _ (String.length p)).
    + unfold IGNORE_ERRORS_REGEX. now apply in_map.
    + rewrite compile_literal by assumption. apply match_pieces_lit.
  - destruct (match_ora_digit d (list_ascii_of_string post) Hd) as [n Hn].
    apply (match_alt_In _ (compile "ora-[0-9]+") _ n); [|exact Hn].
    unfold IGNORE_ERRORS_REGEX. apply in_map. unfold IGNORE_ERRORS.
    cbn [In]. do 25 right. now left.
Qed.

(** X1.  The test of the alternation answers true only for a text that
    holds a plain entry of the list, or [ora-] followed by a digit,
    whatever [lastIndex] it starts from; and started from 0 it answers true
    for every such text. *)
Theorem regex_test_deny_listed (s : string) :
  (forall li e,
     regex_test IGNORE_ERRORS_REGEX s li = (true, e) -> deny_listed s) /\
  (deny_listed s ->
   exists e, regex_test IGNORE_ERRORS_REGEX s 0 = (true, e)).
Proof.
  split.
  - intros li e H.
    apply regex_test_true_inv in H as (_ & pre & suf & n & Hl & Hm & _).
    apply match_alt_entry in Hm as [_ Hent].
    apply (f_equal string_of_list_ascii) in Hl.
    rewrite string_of_list_ascii_of_string in Hl.
    set (hd := take li (list_ascii_of_string s)) in *.
    exists (string_of_list_ascii (hd ++ pre)%list).
    destruct Hent as [(p & rest & Hp & ->)|(d & rest & Hd & ->)].
    + exists (string_of_list_ascii rest). left. exists p. split; [exact Hp|].
      rewrite Hl, app_assoc, !string_of_list_ascii_app.
      now rewrite string_of_list_ascii_of_string.
    + exists (string_of_list_ascii rest). right. exists d.
      split; [exact Hd|].
      rewrite Hl, app_assoc, !string_of_list_ascii_app.
      reflexivity.
  - intros Hd. destruct (deny_listed_found s Hd) as [e He]. exists e.
    unfold regex_test. cbv zeta. change (drop 0 ?l) with l. rewrite He.
    now destruct (list_ascii_of_string s).
Qed.

(** X2.  A test of the alternation that answers true leaves [lastIndex]
    strictly beyond where it started and within the text; one that answers
    false leaves it at 0. *)
Theorem regex_test_lastIndex (s : string) (li : nat) :
  let '(hit, li') := regex_test IGNORE_ERRORS_REGEX s li in
  if hit then li < li' <= String.length s else li' = 0.
Proof.
  destruct (regex_test IGNORE_ERRORS_REGEX s li) as [[|] li'] eqn:H.
  - apply regex_test_true_inv in H as (Hli & pre & suf & n & Hl & Hm & ->).
    apply match_alt_entry in Hm as [Hn _].
    apply (f_equal (@length ascii)) in Hl.
    rewrite !length_app, length_take, list_ascii_length in Hl. lia.
  - unfold regex_test in H. cbv zeta in H.
    destruct (_ <? _)%nat; [now injection H|].
    destruct (regex_search _ _ _); [discriminate | now injection H].
Qed.

(** *** Exceptions *)

Lemma registerException_enabled (w : World) (err : JsError)
    (data : option bag) :
  Telemetry_enabled w = Some true ->
  registerException (Some err) data w
  = let '(hit, li) :=
      regex_test IGNORE_ERRORS_REGEX (errStr_of err) (lastIndex w) in
    if hit then set_lastIndex li w
    else
      call_sentry (CaptureException err)
        (call_sentry (SetExtras err (merged err data))
           (write_log "error" exception_fmt
              [AErr err; ABag (merged err data)] (set_lastIndex li w))).
Proof.
  intros Hon. unfold registerException, errStr_of, merged. rewrite Hon.
  cbn [truthy negb]. now destruct (regex_test _ _ _) as [[|] li].
Qed.

Lemma registerException_flag error data w :
  Telemetry_enabled (registerException error data w) = Telemetry_enabled w.
Proof.
  unfold registerException.
  destruct (truthy (Telemetry_enabled w)); cbn [negb]; [|reflexivity].
  destruct error as [err|]; [|reflexivity].
  destruct (regex_test _ _ _) as [[|] li]; reflexivity.
Qed.

Lemma registerException_missed (w : World) (err : JsError)
    (data : option bag) :
  Telemetry_enabled w = Some true ->
  fst (regex_test IGNORE_ERRORS_REGEX (errStr_of err) (lastIndex w)) = false ->
  sentry (registerException (Some err) data w)
  = (sentry w ++ [SetExtras err (merged err data); CaptureException err])%list
  /\
  logs (registerException (Some err) data w)
  = (logs w ++ [{| ns := "error"; fmt := exception_fmt;
                   args := [AErr err; ABag (merged err data)] |}])%list /\
  lastIndex (registerException (Some err) data w) = 0.
Proof.
  intros Hon Hmiss. rewrite registerException_enabled by exact Hon.
  pose proof (regex_test_lastIndex (errStr_of err) (lastIndex w)) as Hli.
  destruct (regex_test _ _ _) as [hit li]. cbn in Hmiss. subst hit.
  cbn. rewrite <- app_assoc. auto.
Qed.

Lemma registerException_hit (w : World) (err : JsError)
    (data : option bag) :
  Telemetry_enabled w = Some true ->
  fst (regex_test IGNORE_ERRORS_REGEX (errStr_of err) (lastIndex w)) = true ->
  sentry (registerException (Some err) data w) = sentry w /\
  logs (registerException (Some err) data w) = logs w.
Proof.
  intros Hon Hhit. rewrite registerException_enabled by exact Hon.
  destruct (regex_test _ _ _) as [hit li]. cbn in Hhit. subst hit. auto.
Qed.

Lemma hits_deny_listed (s : string) (li : nat) :
  fst (regex_test IGNORE_ERRORS_REGEX s li) = true -> deny_listed s.
Proof.
  destruct (regex_test IGNORE_ERRORS_REGEX s li) as [[|] e] eqn:H;
    [intros _ | discriminate].
  apply regex_test_true_inv in H as (_ & pre & suf & n & Hl & Hm & _).
  apply match_alt_entry in Hm as [_ Hent].
  apply (f_equal string_of_list_ascii) in Hl.
  rewrite string_of_list_ascii_of_string in Hl.
  set (hd := take li (list_ascii_of_string s)) in *.
  exists (string_of_list_ascii (hd ++ pre)%list).
  destruct Hent as [(p & rest & Hp & ->)|(d & rest & Hd & ->)];
    exists (string_of_list_ascii rest); [left; exists p | right; exists d];
    (split; [assumption|]);
    rewrite Hl, app_assoc, !string_of_list_ascii_app;
    now rewrite ?string_of_list_ascii_of_string.
Qed.

Lemma not_deny_listed_misses (s : string) (li : nat) :
  ~ deny_listed s -> fst (regex_test IGNORE_ERRORS_REGEX s li) = false.
Proof.
  intros Hn.
  destruct (fst (regex_test IGNORE_ERRORS_REGEX s li)) eqn:H; [|reflexivity].
  destruct Hn. now apply hits_deny_listed in H.
Qed.

Lemma deny_listed_fresh_hits (s : string) :
  deny_listed s -> fst (regex_test IGNORE_ERRORS_REGEX s 0) = true.
Proof.
  intros Hd. destruct (deny_listed_found s Hd) as [e He].
  unfold regex_test. cbv zeta. change (drop 0 ?l) with l. rewrite He.
  now destruct (list_ascii_of_string s).
Qed.

Lemma empty_not_deny_listed : ~ deny_listed "".
Proof.
  intros (pre & post & [(p & [Hin _] & H)|(d & _ & H)]);
    apply (f_equal String.length) in H; rewrite !string_length_app in H.
  - pose proof (entries_nonempty p Hin). cbn in H. lia.
  - cbn in H. lia.
Qed.


(** X4.  While enabled, an error object without a message, or with the
    empty message, is never filtered: it is forwarded to
    [captureException] from any [lastIndex]. *)
Theorem registerException_no_message_forwards (w : World) (err : JsError)
    (data : option bag) :
  Telemetry_enabled w = Some true ->
  err_message err = None \/ err_message err = Some "" ->
  sentry (registerException (Some err) data w)
  = (sentry w ++ [SetExtras err (merged err data); CaptureException err])%list.
Proof.
  intros Hon Hm. apply registerException_missed; [exact Hon|].
  apply not_deny_listed_misses.
  unfold errStr_of. destruct Hm as [-> | ->]; exact empty_not_deny_listed.
Qed.


Lemma forward_counts_one (w : World) (err : JsError) (props : bag)
    (l : list SentryCall) :
  l = (sentry w ++ [SetExtras err props; CaptureException err])%list ->
  length (filter (fun c => is_capture c = true) l)
  = count_calls is_capture w + 1.
Proof.
  intros ->. unfold count_calls. rewrite filter_app, length_app.
  reflexivity.
Qed.

(** X6.  While enabled, a deny-listed error that comes right after a
    forwarded one is dropped: of two [registerException] calls in a row,
    the second with a deny-listed message, either the first or the second
    leaves the Sentry trace as it found it, so the two add at most one
    capture. *)
Theorem registerException_no_two_leaks (w : World) (err1 err2 : JsError)
    (d1 d2 : option bag) :
  Telemetry_enabled w = Some true ->
  deny_listed (errStr_of err2) ->
  let w1 := registerException (Some err1) d1 w in
  let w2 := registerException (Some err2) d2 w1 in
  (sentry w1 = sentry w \/ sentry w2 = sentry w1) /\
  count_calls is_capture w2 <= count_calls is_capture w + 1.
Proof.
  intros Hon Hd w1 w2.
  assert (Hon1 : Telemetry_enabled w1 = Some true)
    by (subst w1; now rewrite registerException_flag).
  destruct (fst (regex_test IGNORE_ERRORS_REGEX (errStr_of err1)
                   (lastIndex w))) eqn:H1.
  - destruct (registerException_hit w err1 d1 Hon H1) as [Hs1 _].
    fold w1 in Hs1. split; [now left|].
    destruct (fst (regex_test IGNORE_ERRORS_REGEX (errStr_of err2)
                     (lastIndex w1))) eqn:H2.
    + destruct (registerException_hit w1 err2 d2 Hon1 H2) as [Hs2 _].
      fold w2 in Hs2. unfold count_calls. rewrite Hs2, Hs1. lia.
    + destruct (registerException_missed w1 err2 d2 Hon1 H2) as [Hs2 _].
      fold w2 in Hs2. unfold count_calls at 1.
      rewrite (forward_counts_one w1 _ _ _ Hs2). unfold count_calls.
      rewrite Hs1. lia.
  - destruct (registerException_missed w err1 d1 Hon H1) as (Hs1 & _ & Hli).
    fold w1 in Hs1, Hli.
    assert (H2 : fst (regex_test IGNORE_ERRORS_REGEX (errStr_of err2)
                        (lastIndex w1)) = true)
      by (rewrite Hli; now apply deny_listed_fresh_hits).
    destruct (registerException_hit w1 err2 d2 Hon1 H2) as [Hs2 _].
    fold w2 in Hs2. split; [now right|].
    unfold count_calls at 1. rewrite Hs2.
    rewrite (forward_counts_one w _ _ _ Hs1). lia.
Qed.

(** *** Traces and state across operations *)

Section Further.

Variable E : Env.

(** Splitting an operation into its guarded branches. *)
Ltac branches w :=
  unfold run, updateOpts, registerException, registerMessage, registerTime,
    registerEvent, enable, disable, createClient;
  cbn [Telemetry_enabled Telemetry_extraInfo set_extraInfo set_enabled
       call_sentry write_log set_lastIndex set_now sentry logs lastIndex now];
  repeat match goal with
    | |- context [truthy (Telemetry_enabled w)] =>
        let H := fresh "Hflag" in
        destruct (truthy (Telemetry_enabled w)) eqn:H
    | |- context [truthy (enableTelemetry ?o)] =>
        destruct (truthy (enableTelemetry o))
    | |- context [regex_test ?r ?s ?i] =>
        destruct (regex_test r s i) as [[|] ?]
    | |- context [match Telemetry_extraInfo w with _ => _ end] =>
        destruct (Telemetry_extraInfo w)
    | |- context [match ?x with Some _ => _ | None => _ end] =>
        is_var x; destruct x
    end;
  cbn [negb Telemetry_enabled Telemetry_extraInfo set_extraInfo set_enabled
       call_sentry write_log set_lastIndex set_now sentry logs lastIndex now
       truthy];
  try match goal with
      | H : truthy (Telemetry_enabled w) = _ |- _ => rewrite !H
      end;
  cbn [negb Telemetry_enabled Telemetry_extraInfo set_extraInfo set_enabled
       call_sentry write_log set_lastIndex set_now sentry logs lastIndex now
       truthy].

Lemma run_grows (o : Op) (w : World) :
  exists l k,
    sentry (run E o w) = (sentry w ++ l)%list /\
    logs (run E o w) = (logs w ++ k)%list /\
    length (filter (fun c => is_capture c = true) l)
      <= (if is_report o then 1 else 0) /\
    (is_toggle o = false ->
     forall b, fold_left client_step l b = b).
Proof.
  destruct o; branches w;
    repeat rewrite <- app_assoc; cbn [app];
    try (eexists _, _; split; [reflexivity|]; split; [reflexivity|];
         split; [vm_compute; lia | try discriminate; reflexivity]);
    try (exists [], []; rewrite !app_nil_r; split; [reflexivity|];
         split; [reflexivity|]; split; [cbn; lia | reflexivity]).
Qed.

Lemma count_calls_grows p (w w' : World) (l : list SentryCall) :
  sentry w' = (sentry w ++ l)%list ->
  count_calls p w'
  = count_calls p w + length (filter (fun c => p c = true) l).
Proof.
  intros H. unfold count_calls. now rewrite H, filter_app, length_app.
Qed.

(** X7.  No operation removes or rewrites what was sent or logged: the
    Sentry trace and the log after an operation extend those before it.  A
    report operation adds at most one capture, and [configure], [enable]
    and [disable] add none. *)
Theorem operations_only_append (o : Op) (w : World) :
  sentry w `prefix_of` sentry (run E o w) /\
  logs w `prefix_of` logs (run E o w) /\
  count_calls is_capture w <= count_calls is_capture (run E o w) /\
  count_calls is_capture (run E o w)
    <= count_calls is_capture w + (if is_report o then 1 else 0).
Proof.
  destruct (run_grows o w) as (l & k & Hs & Hl & Hc & _).
  split; [now exists l|]. split; [now exists k|].
  rewrite (count_calls_grows is_capture w _ l Hs). lia.
Qed.

Lemma run_flag (o : Op) (w : World) :
  is_toggle o = false ->
  Telemetry_enabled (run E o w) = Telemetry_enabled w /\
  Telemetry_extraInfo (run E o w) = Telemetry_extraInfo w.
Proof.
  intros Ht. split.
  - destruct o; try discriminate Ht; branches w; reflexivity.
  - destruct o; try discriminate Ht; branches w; reflexivity.
Qed.

Lemma run_lastIndex (o : Op) (w : World) :
  (forall error data, o <> OException error data) ->
  lastIndex (run E o w) = lastIndex w.
Proof.
  intros Hne. destruct o; try (now destruct (Hne error data));
    branches w; reflexivity.
Qed.

(** X8.  Only [configure], [enable] and [disable] write the enabled flag
    and the stored extra info, and only [registerException] moves the
    [lastIndex] of the shared regular expression: every other operation
    leaves them as they were. *)
Theorem operations_frame (o : Op) (w : World) :
  (is_toggle o = false ->
   Telemetry_enabled (run E o w) = Telemetry_enabled w /\
   Telemetry_extraInfo (run E o w) = Telemetry_extraInfo w) /\
  ((forall error data, o <> OException error data) ->
   lastIndex (run E o w) = lastIndex w).
Proof. split; [apply run_flag | apply run_lastIndex]. Qed.

Lemma sync_step (o : Op) (w : World) :
  client_enabled w = truthy (Telemetry_enabled w) ->
  client_enabled (run E o w) = truthy (Telemetry_enabled (run E o w)).
Proof.
  intros Hs. destruct (is_toggle o) eqn:Ht.
  - destruct o; try discriminate Ht; unfold client_enabled in *;
      branches w; rewrite ?fold_left_app; cbn [fold_left client_step];
      try reflexivity; congruence.
  - destruct (run_grows o w) as (l & _ & Hl & _ & _ & Hb).
    rewrite (proj1 (run_flag o w Ht)). unfold client_enabled in *.
    now rewrite Hl, fold_left_app, (Hb Ht).
Qed.

(** X9.  In every state the application can reach, the [enabled] option
    of the Sentry client, as left by [Sentry.init] and the assignments
    made since, agrees with the reporter's enabled flag: the client is on
    exactly when the flag is true. *)
Theorem client_follows_flag (w : World) :
  reachable E w -> client_enabled w = truthy (Telemetry_enabled w).
Proof.
  induction 1 as [t|o w Hw IH]; [reflexivity | now apply sync_step].
Qed.

Lemma enable_switches (w : World) :
  truthy (Telemetry_enabled w) = false ->
  1 <= count_calls (is_clientEnabled true) (enable E w).
Proof.
  intros Hoff. unfold count_calls. branches w; [discriminate| |];
    repeat rewrite <- app_assoc; rewrite filter_app, length_app;
    cbn [app]; rewrite filter_cons_True by reflexivity; cbn [length]; lia.
Qed.

Lemma quiet_step (o : Op) (w : World) :
  (count_calls (is_clientEnabled true) w = 0 ->
   truthy (Telemetry_enabled w) = false /\ count_calls is_capture w = 0) ->
  count_calls (is_clientEnabled true) (run E o w) = 0 ->
  truthy (Telemetry_enabled (run E o w)) = false /\
  count_calls is_capture (run E o w) = 0.
Proof.
  intros HI H0.
  destruct (run_grows o w) as (l & _ & Hl & _ & _ & _).
  rewrite (count_calls_grows _ w _ l Hl) in H0.
  destruct HI as [Hoff Hc]; [lia|].
  destruct o; cbn [run] in *.
  - unfold updateOpts in *. cbv zeta in *.
    set (w' := set_extraInfo _ w) in *.
    assert (Hoff' : truthy (Telemetry_enabled w') = false) by exact Hoff.
    destruct (truthy (enableTelemetry opts)).
    + pose proof (enable_switches w' Hoff') as Hsw.
      rewrite (count_calls_grows _ w _ l Hl) in Hsw. lia.
    + now rewrite (disable_noop w' Hoff').
  - pose proof (enable_switches w Hoff) as Hsw.
    rewrite (count_calls_grows _ w _ l Hl) in Hsw. lia.
  - now rewrite (disable_noop w Hoff).
  - now rewrite registerException_falsy.
  - now rewrite registerMessage_falsy.
  - now rewrite registerEvent_falsy.
  - now rewrite registerTime_falsy.
  - auto.
Qed.

(** X10.  Nothing is captured before the client has been switched on:
    in every state the application can reach, a Sentry trace without an
    activation of the client holds no capture of an exception, a message
    or an event, and the flag is not true. *)
Theorem no_capture_before_activation (w : World) :
  reachable E w ->
  count_calls (is_clientEnabled true) w = 0 ->
  truthy (Telemetry_enabled w) = false /\ count_calls is_capture w = 0.
Proof.
  induction 1 as [t|o w Hw IH].
  - intros _. split; reflexivity.
  - now apply quiet_step.
Qed.

(** *** Configuring, continued *)

Lemma set_extraInfo_id (w : World) (e : option ExtraInfo) :
  Telemetry_extraInfo w = e -> set_extraInfo e w = w.
Proof. destruct w. cbn. now intros <-. Qed.

Lemma updateOpts_flag (opts : ITelemetryArgs) (w : World) :
  truthy (Telemetry_enabled (updateOpts E opts w))
  = truthy (enableTelemetry opts).
Proof.
  unfold updateOpts. cbv zeta. destruct (truthy (enableTelemetry opts)).
  - now rewrite enable_enabled.
  - apply disable_falsy.
Qed.

(** X11.  After [configure] the reporter is on exactly when the options
    carried a true [enableTelemetry]: options that leave the field out, as
    well as [false], turn telemetry off. *)
Theorem configure_sets_flag (opts : ITelemetryArgs) (w : World) :
  truthy (Telemetry_enabled (updateOpts E opts w))
  = truthy (enableTelemetry opts) /\
  (enableTelemetry opts = None ->
   truthy (Telemetry_enabled (updateOpts E opts w)) = false) /\
  (truthy (enableTelemetry opts) = true ->
   Telemetry_enabled (updateOpts E opts w) = Some true).
Proof.
  split; [apply updateOpts_flag|]. split.
  - intros Hn. now rewrite updateOpts_flag, Hn.
  - intros Ht. unfold updateOpts. rewrite Ht. cbv zeta. apply enable_enabled.
Qed.

(** X12.  [configure] is idempotent: a second call with the same options
    right after the first changes nothing, neither the state nor the
    Sentry trace nor the log. *)
Theorem configure_idempotent (opts : ITelemetryArgs) (w : World) :
  updateOpts E opts (updateOpts E opts w) = updateOpts E opts w.
Proof.
  set (w1 := updateOpts E opts w).
  assert (Hi : Telemetry_extraInfo w1
               = Some (match extraInfo opts with
                       | Some i => i
                       | None => default {| uniqId := None; sessId := None |}
                                   (Telemetry_extraInfo w)
                       end)) by apply updateOpts_extraInfo.
  assert (Hf : truthy (Telemetry_enabled w1) = truthy (enableTelemetry opts))
    by apply updateOpts_flag.
  unfold updateOpts at 1. cbv zeta. rewrite Hi.
  rewrite set_extraInfo_id by (rewrite Hi; now destruct (extraInfo opts)).
  destruct (truthy (enableTelemetry opts)).
  - now apply enable_noop.
  - now apply disable_noop.
Qed.

(** X13.  A [configure] that finds telemetry on and keeps it on makes no
    Sentry call and writes no log line: identifiers given in that call are
    stored, but the user set on the client is not refreshed. *)
Theorem configure_while_on_is_silent (opts : ITelemetryArgs) (w : World)
    (info : ExtraInfo) :
  Telemetry_enabled w = Some true ->
  enableTelemetry opts = Some true ->
  extraInfo opts = Some info ->
  sentry (updateOpts E opts w) = sentry w /\
  logs (updateOpts E opts w) = logs w /\
  Telemetry_extraInfo (updateOpts E opts w) = Some info /\
  Telemetry_enabled (updateOpts E opts w) = Some true.
Proof.
  intros Hon Ht Hi. unfold updateOpts. rewrite Ht, Hi. cbv zeta.
  cbn [truthy]. rewrite enable_noop by (cbn; now rewrite Hon).
  cbn. auto.
Qed.

(** X14.  A [configure] that turns telemetry on stores the identifiers of
    its options before it activates the client, so the user it sets on the
    client is built from those very identifiers. *)
Theorem configure_on_attaches_given_ids (opts : ITelemetryArgs) (w : World)
    (info : ExtraInfo) :
  truthy (Telemetry_enabled w) = false ->
  enableTelemetry opts = Some true ->
  extraInfo opts = Some info ->
  sentry (updateOpts E opts w)
  = (sentry w
     ++ [ClientEnabled true; SetTags (static_tags E);
         SetUser {| id := uniqId info;
                    deviceId := uniqId info;
                    sessionId := sessId info |}])%list.
Proof.
  intros Hoff Ht Hi. unfold updateOpts. rewrite Ht, Hi. cbv zeta.
  cbn [truthy].
  now rewrite (enable_sentry E (set_extraInfo (Some info) w) info Hoff
                 eq_refl).
Qed.

(** *** The send filter *)

(** X15.  The send filter hands an event on unchanged exactly when the
    flag is true, and drops it otherwise; so it passes every event right
    after [enable()], drops every event right after [disable()], and after
    [configure] does what the options' [enableTelemetry] says. *)
Theorem beforeSend_follows_flag (event : Event) (w : World)
    (opts : ITelemetryArgs) :
  (beforeSend event w = Some event <-> Telemetry_enabled w = Some true) /\
  (beforeSend event w = None <-> truthy (Telemetry_enabled w) = false) /\
  beforeSend event (enable E w) = Some event /\
  beforeSend event (disable w) = None /\
  beforeSend event (updateOpts E opts w)
  = (if truthy (enableTelemetry opts) then Some event else None).
Proof.
  unfold beforeSend. split; [|split; [|split; [|split]]].
  - destruct (Telemetry_enabled w) as [[|]|]; cbn; split; congruence.
  - destruct (Telemetry_enabled w) as [[|]|]; cbn; split; congruence.
  - now rewrite enable_enabled.
  - now rewrite disable_falsy.
  - rewrite updateOpts_flag. now destruct (truthy (enableTelemetry opts)).
Qed.

(** *** Messages, continued *)

Lemma severity_of_default (severity : string) :
  (forall s, severity <> severity_text s) -> severity_of severity = Info.
Proof.
  intros Hne. unfold severity_of.
  repeat match goal with
    | |- context [String.eqb severity ?t] =>
        destruct (String.eqb severity t) eqn:?
    end; try reflexivity;
  match goal with
  | H : String.eqb _ _ = true |- _ => apply String.eqb_eq in H
  end.
  - now destruct (Hne sev_debug).
  - now destruct (Hne sev_warn).
  - now destruct (Hne sev_error).
  - now destruct (Hne sev_fatal).
  - now destruct (Hne sev_critical).
Qed.

(** X16.  While enabled, [registerMessage] with a severity text that is
    none of the six, a differently cased one included, still captures the
    message, at the level looked up for Info. *)
Theorem registerMessage_unknown_severity (w : World)
    (severity msg : string) (value : option string) :
  Telemetry_enabled w = Some true ->
  (forall s, severity <> severity_text s) ->
  sentry (registerMessage E severity msg value w)
  = (sentry w
     ++ [CaptureMessage (prefixed E msg) (Severity_lookup E Info)])%list.
Proof.
  intros Hon Hne. rewrite registerMessage_enabled by exact Hon.
  now rewrite severity_of_default.
Qed.

Lemma toLowerCase_length (s : string) :
  String.length (toLowerCase s) = String.length s.
Proof. induction s as [|c s IH]; cbn; [reflexivity | now rewrite IH]. Qed.

Lemma substr0_length (n : nat) (s : string) :
  String.length (substr0 n s) <= n.
Proof.
  unfold substr0. revert s. induction n as [|n IH]; intros [|c s]; cbn;
    try lia. specialize (IH s). lia.
Qed.

(** X17.  While enabled, [registerMessage] writes one log line whose
    level name is the lower-cased first five characters of the severity
    text: never longer than five characters, the severity's own name for
    debug, info, warn, error and fatal, and [criti] for critical. *)
Theorem registerMessage_log_level (w : World) (severity msg : string)
    (value : option string) :
  Telemetry_enabled w = Some true ->
  exists line,
    logs (registerMessage E severity msg value w) = (logs w ++ [line])%list /\
    ns line = toLowerCase (substr0 5 severity) /\
    String.length (ns line) <= 5 /\
    (forall s, severity = severity_text s ->
       ns line = match s with
                 | sev_critical => "criti"
                 | _ => severity_text s
                 end).
Proof.
  intros Hon. rewrite registerMessage_enabled by exact Hon.
  eexists. split; [reflexivity|]. cbn [ns]. split; [reflexivity|]. split.
  - rewrite toLowerCase_length. apply substr0_length.
  - intros s ->. destruct s; reflexivity.
Qed.

(** *** Prefixes *)

(** X18.  The product name is never empty: an unset or empty [PRODUCT]
    variable gives [ext].  Prefixing keeps keys apart: two keys with the
    same prefixed form are the same key, and a prefixed key is longer than
    the key by the product name and a colon. *)
Theorem prefixed_injective :
  product E <> "" /\
  (PRODUCT E = None \/ PRODUCT E = Some "" -> product E = "ext") /\
  (forall k1 k2, prefixed E k1 = prefixed E k2 -> k1 = k2) /\
  (forall k, String.length (prefixed E k)
             = String.length (product E) + 1 + String.length k).
Proof.
  split; [|split; [|split]].
  - unfold product. destruct (PRODUCT E) as [p|]; [|discriminate].
    destruct (String.eqb p "") eqn:Hp; [discriminate|].
    now apply String.eqb_neq in Hp.
  - unfold product. now intros [-> | ->].
  - unfold prefixed. intros k1 k2 H.
    apply (inj (String.append (product E))) in H.
    now apply (inj (String.append ":")) in H.
  - intros k. unfold prefixed. rewrite !string_length_app. cbn. lia.
Qed.

End Further.

(** X19.  While enabled and with [lastIndex] at 0, [registerException]
    drops an error exactly when its lower-cased message holds a plain entry
    of the list or [ora-] followed by a digit; in particular it drops every
    error whose message contains a plain entry in any letter case. *)
Theorem registerException_fresh_iff (w : World) (err : JsError)
    (data : option bag) :
  Telemetry_enabled w = Some true ->
  lastIndex w = 0 ->
  (sentry (registerException (Some err) data w) = sentry w
   <-> deny_listed (errStr_of err)) /\
  (forall msg p,
     err_message err = Some msg -> plain_entry p -> contains_ci msg p ->
     sentry (registerException (Some err) data w) = sentry w).
Proof.
  intros Hon Hli. split; [split|].
  - intros Hs.
    destruct (fst (regex_test IGNORE_ERRORS_REGEX (errStr_of err)
                     (lastIndex w))) eqn:H.
    + now apply hits_deny_listed in H.
    + destruct (registerException_missed w err data Hon H) as [Hm _].
      rewrite Hm in Hs. apply (f_equal (@length SentryCall)) in Hs.
      rewrite length_app in Hs. cbn in Hs. lia.
  - intros Hd. apply registerException_hit; [exact Hon|].
    rewrite Hli. now apply deny_listed_fresh_hits.
  - intros msg p Hmsg [Hin Hne] Hc.
    now apply (registerException_fresh_drops w err data msg p).
Qed.

(** The two format strings with escapes, character by character: 22 and
    12 code units, the line feed at index 12 and the tab at index 13 of
    the first, the line feed at index 9 of the second. *)
Remark format_escapes :
  String.length exception_fmt = 22 /\
  get 12 exception_fmt = Some (ascii_of_nat 10) /\
  get 13 exception_fmt = Some (ascii_of_nat 9) /\
  String.length event_fmt = 12 /\
  get 9 event_fmt = Some (ascii_of_nat 10).
Proof. repeat split. Qed.

(** ** Further instances *)

Lemma syntax_error_plain : plain_entry "syntax error".
Proof.
  split; [|discriminate]. unfold IGNORE_ERRORS. cbn [In].
  do 27 right. now left.
Qed.

Lemma syntax_err_listed : deny_listed (errStr_of syntax_err).
Proof.
  exists "boom: ", " near from". left. exists "syntax error".
  split; [exact syntax_error_plain | reflexivity].
Qed.


(** X1 at a message with a syntax error and at an Oracle code. *)
Lemma regex_test_deny_listed_witness :
  deny_listed "boom: syntax error near from" /\
  (exists e, regex_test IGNORE_ERRORS_REGEX "boom: syntax error near from" 0
             = (true, e)) /\
  regex_test IGNORE_ERRORS_REGEX "ora-00942" 3 = (false, 0) /\
  regex_test IGNORE_ERRORS_REGEX "ora-00942" 0 = (true, 9) /\
  deny_listed "ora-00942".
Proof.
  split; [exact syntax_err_listed|].
  split; [exact (proj2 (regex_test_deny_listed _) syntax_err_listed)|].
  split; [reflexivity|]. split; [reflexivity|].
  exact (proj1 (regex_test_deny_listed "ora-00942") 0 9 eq_refl).
Defined.


(** X4 at an error without a message, after a drop has moved
    [lastIndex]. *)
Lemma registerException_no_message_forwards_witness :
  let w := registerException (Some syntax_err) None switched_on in
  Telemetry_enabled w = Some true /\
  lastIndex w = 18 /\
  err_message no_message = None /\
  sentry (registerException (Some no_message) None w)
  = (sentry w
     ++ [SetExtras no_message (merged no_message None);
         CaptureException no_message])%list.
Proof.
  intros w. split; [reflexivity|]. split; [reflexivity|].
  split; [reflexivity|].
  exact (registerException_no_message_forwards w no_message None eq_refl
           (or_introl eq_refl)).
Defined.


(** X6 at an unlisted error followed by a listed one. *)
Lemma registerException_no_two_leaks_witness :
  Telemetry_enabled switched_on = Some true /\
  deny_listed (errStr_of syntax_err) /\
  count_calls is_capture
    (registerException (Some syntax_err) None
       (registerException (Some null_pointer) None switched_on))
  <= count_calls is_capture switched_on + 1.
Proof.
  split; [reflexivity|]. split; [exact syntax_err_listed|].
  exact (proj2 (registerException_no_two_leaks switched_on null_pointer
                  syntax_err None None eq_refl syntax_err_listed)).
Defined.

(** X8 at an event. *)
Lemma operations_frame_witness :
  is_toggle (OEvent "save" None) = false /\
  Telemetry_enabled (run sample_env (OEvent "save" None) switched_on)
  = Some true /\
  lastIndex (run sample_env (OEvent "save" None) switched_on) = 0.
Proof.
  split; [reflexivity|].
  destruct (operations_frame sample_env (OEvent "save" None) switched_on)
    as [Hf Hl].
  split; [exact (proj1 (Hf eq_refl)) | apply Hl; discriminate].
Defined.

(** X9 at the singleton switched on and off again. *)
Lemma client_follows_flag_witness :
  reachable sample_env
    (run sample_env ODisable (run sample_env OEnable loaded)) /\
  client_enabled (run sample_env ODisable (run sample_env OEnable loaded))
  = false.
Proof.
  assert (Hr : reachable sample_env
                 (run sample_env ODisable (run sample_env OEnable loaded)))
    by (do 2 apply reach_step; apply reach_load).
  split; [exact Hr | exact (client_follows_flag sample_env _ Hr)].
Defined.

(** X10 at the singleton after a message that came too early. *)
Lemma no_capture_before_activation_witness :
  let w := run sample_env (OMessage "info" "hello" None) loaded in
  reachable sample_env w /\
  count_calls (is_clientEnabled true) w = 0 /\
  count_calls is_capture w = 0.
Proof.
  intros w.
  assert (Hr : reachable sample_env w) by (apply reach_step, reach_load).
  split; [exact Hr|]. split; [reflexivity|].
  exact (proj2 (no_capture_before_activation sample_env w Hr eq_refl)).
Defined.

(** X11 at options that only carry identifiers. *)
Lemma configure_sets_flag_witness :
  enableTelemetry only_ab = None /\
  Telemetry_enabled switched_on = Some true /\
  truthy (Telemetry_enabled (updateOpts sample_env only_ab switched_on))
  = false /\
  truthy (enableTelemetry on_ab) = true /\
  Telemetry_enabled (updateOpts sample_env on_ab loaded) = Some true.
Proof.
  split; [reflexivity|]. split; [reflexivity|].
  split;
    [exact (proj1 (proj2 (configure_sets_flag sample_env only_ab
                            switched_on)) eq_refl)|].
  split; [reflexivity|].
  exact (proj2 (proj2 (configure_sets_flag sample_env on_ab loaded)) eq_refl).
Defined.

(** X13 at identifiers given while telemetry is on. *)
Lemma configure_while_on_is_silent_witness :
  Telemetry_enabled switched_on = Some true /\
  enableTelemetry on_ab = Some true /\
  extraInfo on_ab = Some ids_ab /\
  sentry (updateOpts sample_env on_ab switched_on) = sentry switched_on /\
  Telemetry_extraInfo (updateOpts sample_env on_ab switched_on)
  = Some ids_ab.
Proof.
  split; [reflexivity|]. split; [reflexivity|]. split; [reflexivity|].
  destruct (configure_while_on_is_silent sample_env on_ab switched_on ids_ab
              eq_refl eq_refl eq_refl) as (Hs & _ & Hi & _).
  split; [exact Hs | exact Hi].
Defined.

(** X14 at identifiers given while telemetry is off. *)
Lemma configure_on_attaches_given_ids_witness :
  truthy (Telemetry_enabled loaded) = false /\
  enableTelemetry on_ab = Some true /\
  extraInfo on_ab = Some ids_ab /\
  sentry (updateOpts sample_env on_ab loaded)
  = (sentry loaded
     ++ [ClientEnabled true; SetTags (static_tags sample_env);
         SetUser {| id := Some "a"; deviceId := Some "a";
                    sessionId := Some "b" |}])%list.
Proof.
  split; [reflexivity|]. split; [reflexivity|]. split; [reflexivity|].
  exact (configure_on_attaches_given_ids sample_env on_ab loaded ids_ab
           eq_refl eq_refl eq_refl).
Defined.

(** X15 at one event before and after the switch. *)
Lemma beforeSend_follows_flag_witness :
  let ev := {| event_id := "ext:save"; message := "save"; extra := None;
               timestamp := 0 |} in
  Telemetry_enabled switched_on = Some true /\
  beforeSend ev switched_on = Some ev /\
  truthy (Telemetry_enabled loaded) = false /\
  beforeSend ev loaded = None.
Proof.
  intros ev. split; [reflexivity|].
  split;
    [exact (proj2 (proj1 (beforeSend_follows_flag sample_env ev switched_on
                            on_ab)) eq_refl)|].
  split; [reflexivity|].
  exact (proj2 (proj1 (proj2 (beforeSend_follows_flag sample_env ev loaded
                                on_ab))) eq_refl).
Defined.

(** X16 at an upper-case severity. *)
Lemma registerMessage_unknown_severity_witness :
  Telemetry_enabled switched_on = Some true /\
  (forall s, "DEBUG" <> severity_text s) /\
  sentry (registerMessage sample_env "DEBUG" "hi" None switched_on)
  = (sentry switched_on ++ [CaptureMessage "ext:hi" None])%list.
Proof.
  assert (Hne : forall s, "DEBUG" <> severity_text s)
    by (intros s; destruct s; discriminate).
  split; [reflexivity|]. split; [exact Hne|].
  exact (registerMessage_unknown_severity sample_env switched_on "DEBUG" "hi"
           None eq_refl Hne).
Defined.

(** X17 at a critical message. *)
Lemma registerMessage_log_level_witness :
  Telemetry_enabled switched_on = Some true /\
  exists line,
    logs (registerMessage sample_env "critical" "hi" None switched_on)
    = (logs switched_on ++ [line])%list /\
    ns line = "criti".
Proof.
  split; [reflexivity|].
  destruct (registerMessage_log_level sample_env switched_on "critical" "hi"
              None eq_refl) as (line & Hl & _ & _ & Hs).
  exists line. split; [exact Hl | exact (Hs sev_critical eq_refl)].
Defined.

(** X18 in the sample environment. *)
Lemma prefixed_injective_witness :
  PRODUCT sample_env = None /\
  product sample_env = "ext" /\
  String.length (prefixed sample_env "save") = 8.
Proof.
  split; [reflexivity|].
  destruct (prefixed_injective sample_env) as (_ & Hd & _ & Hlen).
  split; [exact (Hd (or_introl eq_refl)) | exact (Hlen "save")].
Defined.

(** X19 at a listed error in mixed case. *)
Lemma registerException_fresh_iff_witness :
  Telemetry_enabled switched_on = Some true /\
  lastIndex switched_on = 0 /\
  deny_listed (errStr_of syntax_err) /\
  sentry (registerException (Some syntax_err) None switched_on)
  = sentry switched_on.
Proof.
  split; [reflexivity|]. split; [reflexivity|].
  split; [exact syntax_err_listed|].
  exact (proj2 (proj1 (registerException_fresh_iff switched_on syntax_err None
                         eq_refl eq_refl)) syntax_err_listed).
Defined.

(** ** Activations and captures *)

Section Activations.

Variable E : Env.

(** X20.  While enabled, [registerMessage], [registerEvent] and
    [registerTime] each add exactly one capture to the Sentry trace;
    the first two write one log line and [registerTime] writes two, its own
    and the one of the event it delegates to. *)
Theorem reports_fire_once (w : World) :
  Telemetry_enabled w = Some true ->
  (forall severity msg value,
     count_calls is_capture (registerMessage E severity msg value w)
     = count_calls is_capture w + 1 /\
     length (logs (registerMessage E severity msg value w))
     = length (logs w) + 1) /\
  (forall name properties,
     count_calls is_capture (registerEvent E name properties w)
     = count_calls is_capture w + 1 /\
     length (logs (registerEvent E name properties w))
     = length (logs w) + 1) /\
  (forall timeKey timer,
     count_calls is_capture (registerTime E timeKey timer w)
     = count_calls is_capture w + 1 /\
     length (logs (registerTime E timeKey timer w))
     = length (logs w) + 2).
Proof.
  intros Hon. split; [|split].
  - intros severity msg value. rewrite registerMessage_enabled by exact Hon.
    rewrite count_calls_snoc, count_calls_log. cbn [is_capture].
    split; [reflexivity|].
    cbn [logs call_sentry write_log]. rewrite length_app. cbn. lia.
  - intros name properties. rewrite registerEvent_enabled by exact Hon.
    rewrite count_calls_snoc, count_calls_log. cbn [is_capture].
    split; [reflexivity|].
    cbn [logs call_sentry write_log]. rewrite length_app. cbn. lia.
  - intros timeKey timer. unfold registerTime. rewrite Hon.
    cbn [truthy negb]. cbv zeta.
    rewrite registerEvent_enabled by exact Hon.
    rewrite count_calls_snoc, !count_calls_log. cbn [is_capture].
    split; [reflexivity|].
    cbn [logs call_sentry write_log]. rewrite !length_app. cbn. lia.
Qed.

Lemma activation_step (o : Op) (w : World) :
  is_Some (Telemetry_extraInfo w) ->
  exists l,
    sentry (run E o w) = (sentry w ++ l)%list /\
    length (filter (fun c => is_setTags c = true) l)
    = length (filter (fun c => is_clientEnabled true c = true) l) /\
    length (filter (fun c => is_setUser c = true) l)
    = length (filter (fun c => is_clientEnabled true c = true) l).
Proof.
  intros Hi. revert Hi.
  destruct o;
    unfold run, updateOpts, registerException, registerMessage, registerTime,
      registerEvent, enable, disable, createClient;
    cbn [Telemetry_enabled Telemetry_extraInfo set_extraInfo set_enabled
         call_sentry write_log set_lastIndex set_now sentry];
    destruct (truthy (Telemetry_enabled w)) eqn:Hflag;
    repeat match goal with
      | |- context [truthy (enableTelemetry ?o)] =>
          destruct (truthy (enableTelemetry o))
      | |- context [regex_test ?r ?s ?i] =>
          destruct (regex_test r s i) as [[|] ?]
      | |- context [match ?x with Some _ => _ | None => _ end] =>
          is_var x; destruct x
      end;
    cbn [negb truthy Telemetry_enabled Telemetry_extraInfo set_extraInfo
         set_enabled call_sentry write_log set_lastIndex set_now sentry];
    rewrite ?Hflag;
    cbn [negb truthy Telemetry_enabled Telemetry_extraInfo set_extraInfo
         set_enabled call_sentry write_log set_lastIndex set_now sentry];
    intros [info Hinfo]; rewrite ?Hinfo;
    cbn [call_sentry write_log set_enabled sentry];
    repeat rewrite <- app_assoc; cbn [app];
    first
      [ eexists; split; [reflexivity|]; split; vm_compute; reflexivity
      | exists []; rewrite app_nil_r; split; [reflexivity|];
        split; reflexivity ].
Qed.

(** X21.  In every state the application can reach, the Sentry trace
    holds as many [setTags] calls and as many [setUser] calls as
    activations of the client: each time the client is switched on it is
    given the tags and a user, and they are sent at no other time. *)
Theorem activations_carry_tags_and_user (w : World) :
  reachable E w ->
  count_calls is_setTags w = count_calls (is_clientEnabled true) w /\
  count_calls is_setUser w = count_calls (is_clientEnabled true) w.
Proof.
  induction 1 as [t|o w Hw [IHt IHu]]; [split; reflexivity|].
  destruct (activation_step o w (reachable_extraInfo E w Hw))
    as (l & Hl & Ht & Hu).
  rewrite !(count_calls_grows _ w _ l Hl). lia.
Qed.

End Activations.

(** X20 at the singleton switched on. *)
Lemma reports_fire_once_witness :
  Telemetry_enabled switched_on = Some true /\
  count_calls is_capture (registerTime sample_env "query" timerStub switched_on)
  = count_calls is_capture switched_on + 1 /\
  length (logs (registerTime sample_env "query" timerStub switched_on))
  = length (logs switched_on) + 2.
Proof.
  split; [reflexivity|].
  exact (proj2 (proj2 (reports_fire_once sample_env switched_on eq_refl))
           "query" timerStub).
Defined.

(** X21 at the singleton switched on, off and on again. *)
Lemma activations_carry_tags_and_user_witness :
  let w := run sample_env OEnable
             (run sample_env ODisable (run sample_env OEnable loaded)) in
  reachable sample_env w /\
  count_calls (is_clientEnabled true) w = 2 /\
  count_calls is_setTags w = count_calls (is_clientEnabled true) w /\
  count_calls is_setUser w = count_calls (is_clientEnabled true) w.
Proof.
  intros w.
  assert (Hr : reachable sample_env w)
    by (do 3 apply reach_step; apply reach_load).
  split; [exact Hr|]. split; [reflexivity|].
  exact (activations_carry_tags_and_user sample_env w Hr).
Defined.
